(** * Friends character chatbot: the transcript-to-prompt pipeline

    A shallow embedding of [friend_character_chatbox.py]: the transcript
    cleaner [remove_paranthesis], and [CharacterChatBot.__init__] with
    [CharacterChatBot.load_data], which reads the transcript table, drops
    rows with nulls, cleans the dialogue, counts words, flags the rows of
    each known character, and pairs every flagged row with the row before it
    into one training prompt.

    Python [str] values are modelled as [string]; characters are the
    one-byte code points.  A pandas [DataFrame] is a list of labelled rows,
    each row a map from column names to cells.  Exceptions and the effects
    of the pipeline (what it prints, which external services it calls) are
    threaded through a small state-and-error monad. *)

From Stdlib Require Import String Ascii List ZArith Lia Bool DecimalString Sorted.
From Stdlib Require DecimalPos DecimalZ.
Import ListNotations.
Local Open Scope string_scope.
Local Open Scope Z_scope.

(** ** Text *)

Module Text.

(** The newline character, the only one the regex [.] refuses. *)
Definition nl : ascii := "010"%char.
Definition lparen : ascii := "("%char.
Definition rparen : ascii := ")"%char.
Definition space : ascii := " "%char.

(** [lazy_close s]: the pattern tail [.*?\)] tried at the start of [s].
    The lazy star takes as few characters as it can, so the match ends at
    the first [")"], and it fails when a newline (or the end of the text)
    comes first.  The result is what is left of [s] after the match. *)
Fixpoint lazy_close (s : string) : option string :=
  match s with
  | EmptyString => None
  | String c s' =>
      if Ascii.eqb c rparen then Some s'
      else if Ascii.eqb c nl then None
      else lazy_close s'
  end.

(** [match_paren s]: the whole pattern [\(.*?\)] tried at the start of [s]. *)
Definition match_paren (s : string) : option string :=
  match s with
  | EmptyString => None
  | String c s' => if Ascii.eqb c lparen then lazy_close s' else None
  end.

(** [re.sub(r'\(.*?\)', '', text)]: scan from the left; where the pattern
    matches, drop the match and go on after it; elsewhere keep the
    character and move one step.  The fuel bounds the number of steps. *)
Fixpoint sub_paren (fuel : nat) (s : string) : string :=
  match fuel with
  | O => s
  | S fuel' =>
      match s with
      | EmptyString => EmptyString
      | String c s' =>
          match match_paren s with
          | Some rest => sub_paren fuel' rest
          | None => String c (sub_paren fuel' s')
          end
      end
  end.

Definition remove_paranthesis (text : string) : string :=
  sub_paren (String.length text) text.

(** [re.search(r'\(.*?\)', s) is not None]. *)
Fixpoint has_paren_match (s : string) : bool :=
  match s with
  | EmptyString => false
  | String c s' =>
      match match_paren s with
      | Some _ => true
      | None => has_paren_match s'
      end
  end.

(** [str.isspace] on the one-byte code points. *)
Definition is_space (c : ascii) : bool :=
  let n := nat_of_ascii c in
  ((9 <=? n) && (n <=? 13) || (28 <=? n) && (n <=? 32)
   || (n =? 133) || (n =? 160))%nat.

Fixpoint lstrip (s : string) : string :=
  match s with
  | EmptyString => EmptyString
  | String c s' => if is_space c then lstrip s' else s
  end.

Fixpoint rstrip (s : string) : string :=
  match s with
  | EmptyString => EmptyString
  | String c s' =>
      match rstrip s' with
      | EmptyString => if is_space c then EmptyString else String c EmptyString
      | r => String c r
      end
  end.

(** [s.strip()] *)
Definition strip (s : string) : string := rstrip (lstrip s).

(** [s.split(sep)] for a one-character separator: every occurrence of
    [sep] cuts, so the empty text gives one empty piece. *)
Fixpoint split (sep : ascii) (s : string) : list string :=
  match s with
  | EmptyString => [EmptyString]
  | String c s' =>
      if Ascii.eqb c sep then EmptyString :: split sep s'
      else match split sep s' with
           | piece :: pieces => String c piece :: pieces
           | [] => [String c EmptyString]
           end
  end.

(** The two [number_of_words] lines of [load_data] on one dialogue:
    [len(dialogue.strip().split(" "))]. *)
Definition number_of_words (dialogue : string) : Z :=
  Z.of_nat (List.length (split space (strip dialogue))).

(** Decimal rendering of an integer, as an f-string does. *)
Definition str_of_int (z : Z) : string := NilZero.string_of_int (Z.to_int z).

End Text.

(** ** Exceptions *)

Inductive exn : Type :=
| ValueError (msg : string)
| KeyError (key : string)
| TypeError
| IndexError
| AttributeError
| FileNotFoundError (path : string).

Inductive result (A : Type) : Type :=
| Ok (a : A)
| Raise (e : exn).
Arguments Ok {A} a.
Arguments Raise {A} e.

Definition bind_result {A B} (r : result A) (k : A -> result B) : result B :=
  match r with
  | Ok a => k a
  | Raise e => Raise e
  end.

Declare Scope result_scope.
Delimit Scope result_scope with result.
Notation "x <- r ;; k" := (bind_result r (fun x => k))
  (at level 61, r at next level, right associativity) : result_scope.

(** [[f(x) for x in xs]], stopping at the first exception. *)
Fixpoint traverse {A B} (f : A -> result B) (xs : list A) : result (list B) :=
  match xs with
  | [] => Ok []
  | x :: xs' =>
      (y <- f x ;; ys <- traverse f xs' ;; Ok (y :: ys))%result
  end.

(** ** Data frames *)

Module Frame.

(** A cell: a missing value, a text, an integer, or a list of texts (the
    intermediate [number_of_words] column holds the split pieces). *)
Inductive cell : Type :=
| NaN
| Str (s : string)
| Int (z : Z)
| Lst (l : list string).

Definition row : Type := string -> cell.

(** A frame: the column names, and the rows in order, each with its index
    label.  [dropna] and boolean masks remove rows and keep the labels of
    the rows that stay. *)
Record DataFrame : Type := mkFrame {
  columns : list string;
  rows : list (Z * row)
}.

(** The content of a CSV file: the header line and the records. *)
Record csv : Type := mkCsv {
  header : list string;
  records : list (list cell)
}.

Definition has_column (c : string) (cols : list string) : bool :=
  existsb (String.eqb c) cols.

Fixpoint row_of (names : list string) (cells : list cell) : row :=
  fun c =>
    match names, cells with
    | n :: names', v :: cells' => if String.eqb c n then v else row_of names' cells' c
    | _, _ => NaN
    end.

(** Labels [start], [start+1], ... given to the records in order. *)
Fixpoint label_from (start : Z) (names : list string) (recs : list (list cell))
  : list (Z * row) :=
  match recs with
  | [] => []
  | r :: recs' => (start, row_of names r) :: label_from (start + 1) names recs'
  end.

(** [pd.read_csv] on the file content: a frame with the default range index. *)
Definition of_csv (f : csv) : DataFrame :=
  {| columns := header f; rows := label_from 0 (header f) (records f) |}.

(** [len(df)] *)
Definition len (df : DataFrame) : Z := Z.of_nat (List.length (rows df)).

(** [df.index] *)
Definition index (df : DataFrame) : list Z := map fst (rows df).

Definition is_nan (v : cell) : bool :=
  match v with
  | NaN => true
  | _ => false
  end.

(** [df.dropna()]: only the rows with no missing value in any column. *)
Definition dropna (df : DataFrame) : DataFrame :=
  {| columns := columns df;
     rows := filter (fun r => forallb (fun c => negb (is_nan (snd r c))) (columns df))
                    (rows df) |}.

(** [df[c]] read: the column as a series, a [KeyError] when there is none. *)
Definition getitem (df : DataFrame) (c : string) : result (list cell) :=
  if has_column c (columns df) then Ok (map (fun r => snd r c) (rows df))
  else Raise (KeyError c).

Definition update (r : row) (c : string) (v : cell) : row :=
  fun c' => if String.eqb c' c then v else r c'.

Definition add_column (c : string) (cols : list string) : list string :=
  if has_column c cols then cols else (cols ++ [c])%list.

(** [df[c] = series], for a series computed from [df] itself: the indexes
    agree, so the values go to the rows by position. *)
Definition setitem (df : DataFrame) (c : string) (series : list cell) : DataFrame :=
  {| columns := add_column c (columns df);
     rows := map (fun rv => (fst (fst rv), update (snd (fst rv)) c (snd rv)))
                 (combine (rows df) series) |}.

(** [df[c] = v] for a scalar [v]. *)
Definition setitem_scalar (df : DataFrame) (c : string) (v : cell) : DataFrame :=
  setitem df c (map (fun _ => v) (rows df)).

(** [df.loc[mask, c] = v] for an existing column [c]. *)
Definition loc_set (df : DataFrame) (mask : list bool) (c : string) (v : cell)
  : DataFrame :=
  {| columns := columns df;
     rows := map (fun rm => if snd rm : bool
                            then (fst (fst rm), update (snd (fst rm)) c v)
                            else fst rm)
                 (combine (rows df) mask) |}.

(** [df[mask]] *)
Definition select (df : DataFrame) (mask : list bool) : DataFrame :=
  {| columns := columns df;
     rows := map fst (filter snd (combine (rows df) mask)) |}.

Definition cell_eqb (a b : cell) : bool :=
  match a, b with
  | NaN, NaN => false
  | Str s, Str t => String.eqb s t
  | Int x, Int y => Z.eqb x y
  | Lst l, Lst m => if list_eq_dec string_dec l m then true else false
  | _, _ => false
  end.

(** [series == v] *)
Definition series_eq (series : list cell) (v : cell) : list bool :=
  map (fun x => cell_eqb x v) series.

(** [series > n]: only numbers compare with a number. *)
Definition series_gt (series : list cell) (n : Z) : result (list bool) :=
  traverse (fun x => match x with
                     | Int z => Ok (n <? z)
                     | _ => Raise TypeError
                     end) series.

(** [mask1 & mask2] *)
Definition mask_and (m1 m2 : list bool) : list bool :=
  map (fun p => andb (fst p) (snd p)) (combine m1 m2).

(** [df.index > n] *)
Definition index_gt (df : DataFrame) (n : Z) : list bool :=
  map (fun l => n <? l) (index df).

(** [series.str.strip()] and [series.str.split(sep)]: a value that is not
    a text becomes missing. *)
Definition str_strip (series : list cell) : list cell :=
  map (fun x => match x with
                | Str s => Str (Text.strip s)
                | _ => NaN
                end) series.

Definition str_split (sep : ascii) (series : list cell) : list cell :=
  map (fun x => match x with
                | Str s => Lst (Text.split sep s)
                | _ => NaN
                end) series.

Definition is_str (v : cell) : bool :=
  match v with
  | Str _ => true
  | _ => false
  end.

(** The dtype [read_csv] gives a column is [object] when the file has no
    record, or when some value of the column is a text; a column of
    missing values or of numbers only is numeric. *)
Definition object_dtype (df : DataFrame) (c : string) : bool :=
  match rows df with
  | [] => true
  | _ :: _ => existsb (fun r => is_str (snd r c)) (rows df)
  end.

(** [series.str]: the accessor is for string values, and raises
    [AttributeError] otherwise.  A series with rows is looked at by its
    values; a series without rows has the dtype the column was read with. *)
Definition str_accessor (object : bool) (series : list cell)
  : result (list cell) :=
  match series with
  | [] => if object then Ok series else Raise AttributeError
  | _ :: _ => if forallb is_str series then Ok series else Raise AttributeError
  end.

(** [len(x)] on a cell. *)
Definition len_cell (x : cell) : result cell :=
  match x with
  | Lst l => Ok (Int (Z.of_nat (List.length l)))
  | Str s => Ok (Int (Z.of_nat (String.length s)))
  | _ => Raise TypeError
  end.

(** [df.iloc[p][c]]: the row at position [p], counted from the end when [p]
    is negative, then its field [c]. *)
Definition iloc (df : DataFrame) (p : Z) (c : string) : result cell :=
  if (- len df <=? p) && (p <? len df) then
    match nth_error (rows df) (Z.to_nat (p mod len df)) with
    | Some r => if has_column c (columns df) then Ok (snd r c) else Raise (KeyError c)
    | None => Raise IndexError
    end
  else Raise IndexError.

(** [pd.DataFrame({name: values})] for one column of texts. *)
Definition of_dict (name : string) (values : list string) : DataFrame :=
  {| columns := [name];
     rows := label_from 0 [name] (map (fun v => [Str v]) values) |}.

End Frame.

Import Frame.

(** [datasets.Dataset]: named columns.  [from_pandas] keeps the columns of
    the frame; a range index is not stored as a column. *)
Definition Dataset : Type := list (string * list cell).

Definition from_pandas (df : DataFrame) : Dataset :=
  map (fun c => (c, map (fun r => snd r c) (rows df))) (columns df).

Definition column_names (ds : Dataset) : list string := map fst ds.

(** [ds[c]] *)
Fixpoint dataset_column (ds : Dataset) (c : string) : option (list cell) :=
  match ds with
  | [] => None
  | (n, vs) :: ds' => if String.eqb c n then Some vs else dataset_column ds' c
  end.

Definition num_rows (ds : Dataset) : nat :=
  match ds with
  | [] => O
  | (_, vs) :: _ => List.length vs
  end.

(** ** Effects

    What the program does to the outside, in the order it does it. *)

Inductive event : Type :=
| Print (line : string)
| HubLogin (token : string)
| HubRepoExists (path : string)
| ReadCsv (path : string)
| LoadModel (path : string)
| Train (base_model : string) (dataset : Dataset) (dataset_text_field : string)
| PushToHub (path : string).

(** A computation starts from the events so far, and ends with a value or
    an exception and the events so far then. *)
Definition M (A : Type) : Type := list event -> result A * list event.

Definition ret {A} (a : A) : M A := fun t => (Ok a, t).

Definition raise {A} (e : exn) : M A := fun t => (Raise e, t).

Definition bind {A B} (m : M A) (k : A -> M B) : M B :=
  fun t =>
    match m t with
    | (Ok a, t') => k a t'
    | (Raise e, t') => (Raise e, t')
    end.

Definition emit (e : event) : M unit := fun t => (Ok tt, (t ++ [e])%list).

Definition lift {A} (r : result A) : M A := fun t => (r, t).

Declare Scope monad_scope.
Delimit Scope monad_scope with monad.
Notation "x <- m ;; k" := (bind m (fun x => k))
  (at level 61, m at next level, right associativity) : monad_scope.
Notation "m ;; k" := (bind m (fun _ => k))
  (at level 61, right associativity) : monad_scope.

(** [print(line)] *)
Definition print (line : string) : M unit := emit (Print line).

(** ** The chatbot *)

Module CharacterChatBot.

Record self : Type := mkSelf {
  model_path : string;
  data_path : string;
  huggingface_token : option string;
  character_name : string;
  base_model_path : string
}.

(** The [character_models] table of [load_data], in the order written. *)
Definition character_models : list (string * string) :=
  [ ("Rachel", "nitish-11/friends_Rachel_trained_Llama-3-8B");
    ("Ross", "nitish-11/friends_Ross_trained2_Llama-3-8B");
    ("Chandler", "nitish-11/friends_Chandler_trained_Llama-3-8B");
    ("Monica", "nitish-11/friends_Monica_trained_Llama-3-8B");
    ("Joey", "nitish-11/friends_Joey_trained_Llama-3-8B");
    ("Phoebe", "nitish-11/friends_Phoebe_trained_Llama-3-8B") ].

(** [character_models.keys()] *)
Definition keys : list string := map fst character_models.

(** [f'{character}_response_flag'] *)
Definition flag_column (character : string) : string :=
  character ++ "_response_flag".

(** [series.apply(remove_paranthesis)]: [re.sub] takes a text only. *)
Definition clean_cell (x : cell) : result cell :=
  match x with
  | Str s => Ok (Str (Text.remove_paranthesis s))
  | _ => Raise TypeError
  end.

(** Lines 209-212: drop the rows with nulls, clean the dialogue, count the
    words.  [apply] keeps the dtype of a column without rows, so it is the
    dtype of the [Dialogue] column as read that [.str] meets then. *)
Definition clean_and_count (df : DataFrame) : result DataFrame :=
  (let object := object_dtype df "Dialogue" in
   let df := dropna df in
   dialogue <- getitem df "Dialogue" ;;
   cleaned <- traverse clean_cell dialogue ;;
   let df := setitem df "Dialogue" cleaned in
   dialogue <- getitem df "Dialogue" ;;
   dialogue <- str_accessor object dialogue ;;
   let df := setitem df "number_of_words"
                     (str_split Text.space (str_strip dialogue)) in
   pieces <- getitem df "number_of_words" ;;
   counts <- traverse len_cell pieces ;;
   Ok (setitem df "number_of_words" counts))%result.

(** Lines 225-229, the body of the loop over the known characters. *)
Definition flag_character (df : DataFrame) (character : string)
  : result DataFrame :=
  (let df := setitem_scalar df (flag_column character) (Int 0) in
   speaker <- getitem df "Speaker" ;;
   words <- getitem df "number_of_words" ;;
   long <- series_gt words 5 ;;
   Ok (loc_set df (mask_and (series_eq speaker (Str character)) long)
               (flag_column character) (Int 1)))%result.

(** Lines 224-229, the loop. *)
Fixpoint flag_characters (df : DataFrame) (characters : list string)
  : result DataFrame :=
  match characters with
  | [] => Ok df
  | character :: rest =>
      (df' <- flag_character df character ;; flag_characters df' rest)%result
  end.

(** Line 233. *)
Definition indexes_to_take (df : DataFrame) (character : string)
  : result (list Z) :=
  (flag <- getitem df (flag_column character) ;;
   Ok (index (select df (mask_and (series_eq flag (Int 1)) (index_gt df 0)))))%result.

(** Line 235. *)
Definition system_prompt (character : string) : string :=
  String Text.nl ("You are " ++ character
    ++ " from the Friends TV Show. Your responses should reflect "
    ++ character ++ "'s personality and speech patterns."
    ++ String Text.nl EmptyString).

(** [prompt += x] *)
Definition str_add (prompt : string) (x : cell) : result string :=
  match x with
  | Str s => Ok (prompt ++ s)
  | _ => Raise TypeError
  end.

(** Line 246. *)
Definition out_of_bounds (i : Z) : string :=
  "Index " ++ Text.str_of_int i ++ " is out of bounds".

(** Lines 239-251, one turn of the loop over [indexes_to_take]: the
    prompts so far go in, and come out with the new prompt unless the
    index is skipped. *)
Definition build_prompt (df : DataFrame) (system_prompt : string)
  (prompts : list string) (ind : Z) : M (list string) :=
  (let prompt := system_prompt in
   if (0 <=? ind - 1) && (ind - 1 <? len df) then
     previous <- lift (iloc df (ind - 1) "Dialogue") ;;
     prompt <- lift (str_add prompt previous) ;;
     let prompt := prompt ++ String Text.nl EmptyString in
     current <- lift (iloc df ind "Dialogue") ;;
     prompt <- lift (str_add prompt current) ;;
     ret (prompts ++ [prompt])%list
   else
     print (out_of_bounds (ind - 1)) ;;
     ret prompts)%monad.

(** Lines 237-251. *)
Fixpoint build_prompts (df : DataFrame) (system_prompt : string)
  (prompts : list string) (indexes : list Z) : M (list string) :=
  match indexes with
  | [] => ret prompts
  | ind :: rest =>
      (prompts' <- build_prompt df system_prompt prompts ind ;;
       build_prompts df system_prompt prompts' rest)%monad
  end.

(** Lines 253-254, the dataset assembler. *)
Definition assemble (prompts : list string) : Dataset :=
  from_pandas (of_dict "prompt" prompts).

Section World.

(** The files on disk and the repositories on the hub. *)
Variable files : string -> option csv.
Variable hub : string -> bool.

(** [pd.read_csv(path)] *)
Definition read_csv (path : string) : M DataFrame :=
  (emit (ReadCsv path) ;;
   match files path with
   | Some f => ret (of_csv f)
   | None => raise (FileNotFoundError path)
   end)%monad.

Definition load_data (this : self) : M Dataset :=
  (friends_transcript_df <- read_csv (data_path this) ;;
   friends_transcript_df <- lift (clean_and_count friends_transcript_df) ;;
   friends_transcript_df <- lift (flag_characters friends_transcript_df keys) ;;
   let character := character_name this in
   indexes <- lift (indexes_to_take friends_transcript_df character) ;;
   prompts <- build_prompts friends_transcript_df (system_prompt character)
                            [] indexes ;;
   ret (assemble prompts))%monad.

(** The text field [SFTTrainer] is told to read, line 169. *)
Definition dataset_text_field : string := "prompt".

(** [train] and [load_model] hand over to the training framework; what is
    kept of them is the call, with the dataset and the field it reads, and
    the upload of the result. *)
Definition train (this : self) (base_model_name_or_path : string)
  (dataset : Dataset) : M unit :=
  (emit (Train base_model_name_or_path dataset dataset_text_field) ;;
   emit (PushToHub (model_path this)))%monad.

Definition load_model (path : string) : M unit := emit (LoadModel path).

Definition repo_exists (path : string) : M bool :=
  (emit (HubRepoExists path) ;; ret (hub path))%monad.

(** [CharacterChatBot(model_path, data_path, huggingface_token,
    character_name)], lines 25-52. *)
Definition __init__ (model_path data_path : string)
  (huggingface_token character_name : option string) : M self :=
  match character_name with
  | None => raise (ValueError "character_name must be provided.")
  | Some name =>
      (let this := {| model_path := model_path;
                      data_path := data_path;
                      huggingface_token := huggingface_token;
                      character_name := name;
                      base_model_path := "meta-llama/Meta-Llama-3-8B-Instruct" |} in
       match huggingface_token with
       | Some token => emit (HubLogin token)
       | None => ret tt
       end ;;
       found <- repo_exists model_path ;;
       if found : bool then
         load_model model_path ;;
         ret this
       else
         print "Model Not found in huggingface hub we will train our own model" ;;
         train_dataset <- load_data this ;;
         train this (base_model_path this) train_dataset ;;
         load_model model_path ;;
         ret this)%monad
  end.

End World.

End CharacterChatBot.

Import CharacterChatBot.

(** ** Notions used by the statements *)

(** [mem_char c s]: the character [c] occurs in [s]. *)
Fixpoint mem_char (c : ascii) (s : string) : bool :=
  match s with
  | EmptyString => false
  | String c' s' => Ascii.eqb c' c || mem_char c s'
  end.

(** [paren_span m]: the pattern [\(.*?\)] matches the whole of [m], an
    opening parenthesis, characters other than the newline, and a closing
    parenthesis. *)
Definition paren_span (m : string) : Prop :=
  exists body,
    m = String Text.lparen (body ++ String Text.rparen EmptyString)
    /\ mem_char Text.nl body = false.

(** The word count in the words of the specification, the number of
    whitespace-delimited tokens: a token starts at every character that is
    not a space and follows a space or the start of the text. *)
Fixpoint tokens_from (after_space : bool) (s : string) : nat :=
  match s with
  | EmptyString => O
  | String c s' =>
      if Text.is_space c then tokens_from true s'
      else if after_space then S (tokens_from false s')
      else tokens_from false s'
  end.

Definition whitespace_tokens (s : string) : Z := Z.of_nat (tokens_from true s).

(** *** The stages of [load_data], row by row *)

Definition text_of (x : cell) : string :=
  match x with
  | Str s => s
  | _ => EmptyString
  end.

(** What lines 210-212 leave in one row: the cleaned dialogue, and in
    [number_of_words] first the pieces, then their number. *)
Definition clean_row (r : row) : row :=
  let d := Text.remove_paranthesis (text_of (r "Dialogue")) in
  update
    (update (update r "Dialogue" (Str d))
            "number_of_words" (Lst (Text.split Text.space (Text.strip d))))
    "number_of_words" (Int (Text.number_of_words d)).

Definition text_or_missing (x : cell) : bool :=
  match x with
  | Str _ | NaN => true
  | _ => false
  end.

(** The file has a [Dialogue] column, and it holds texts. *)
Definition has_dialogue (f : csv) : bool :=
  has_column "Dialogue" (header f)
  && forallb (fun r => text_or_missing (row_of (header f) r "Dialogue")) (records f).

(** A transcript file: [Speaker] and [Dialogue] columns, dialogue in text. *)
Definition well_formed (f : csv) : bool :=
  has_column "Speaker" (header f) && has_dialogue f.

(** The [.str] accessor of line 211 takes the [Dialogue] column of the
    file: some row is left after [dropna], or the column was read as
    [object]. *)
Definition str_accepts (f : csv) : bool :=
  match rows (dropna (of_csv f)) with
  | [] => object_dtype (of_csv f) "Dialogue"
  | _ :: _ => true
  end.

(** The cleaned transcript: the frame after line 212. *)
Definition cleaned_frame (f : csv) : DataFrame :=
  {| columns := add_column "number_of_words" (header f);
     rows := map (fun lr => (fst lr, clean_row (snd lr)))
                 (rows (dropna (of_csv f))) |}.

Definition more_than (n : Z) (x : cell) : bool :=
  match x with
  | Int z => n <? z
  | _ => false
  end.

(** What one turn of the flag loop leaves in one row. *)
Definition flag_row (r : row) (character : string) : row :=
  let r0 := update r (flag_column character) (Int 0) in
  if cell_eqb (r0 "Speaker") (Str character) && more_than 5 (r0 "number_of_words")
  then update r0 (flag_column character) (Int 1)
  else r0.

Definition flagged_frame (df : DataFrame) (characters : list string) : DataFrame :=
  {| columns := fold_left (fun cs ch => add_column (flag_column ch) cs)
                          characters (columns df);
     rows := map (fun lr => (fst lr, fold_left flag_row characters (snd lr)))
                 (rows df) |}.

(** Lines 209-233 in one piece: the frame the prompts are read from, and
    the indexes taken for the character. *)
Definition prepare (f : csv) (character : string)
  : result (DataFrame * list Z) :=
  (df <- clean_and_count (of_csv f) ;;
   df <- flag_characters df keys ;;
   indexes <- indexes_to_take df character ;;
   Ok (df, indexes))%result.

(** The guard of line 242. *)
Definition in_range (df : DataFrame) (ind : Z) : bool :=
  (0 <=? ind - 1) && (ind - 1 <? len df).

(** The prompt lines 239-250 put together for one index. *)
Definition prompt_at (df : DataFrame) (system_prompt : string) (ind : Z)
  : result string :=
  (previous <- iloc df (ind - 1) "Dialogue" ;;
   prompt <- str_add system_prompt previous ;;
   current <- iloc df ind "Dialogue" ;;
   str_add (prompt ++ String Text.nl EmptyString) current)%result.

(** The notices of the indexes the loop skips. *)
Definition notices (df : DataFrame) (indexes : list Z) : list event :=
  map (fun ind => Print (out_of_bounds (ind - 1)))
      (filter (fun ind => negb (in_range df ind)) indexes).

(** What is left of [s] after [prefix], when [s] starts with it. *)
Fixpoint after_prefix (prefix s : string) : option string :=
  match prefix, s with
  | EmptyString, _ => Some s
  | String a prefix', String b s' =>
      if Ascii.eqb a b then after_prefix prefix' s' else None
  | String _ _, EmptyString => None
  end.

(** The characters of [s] before its first space. *)
Fixpoint before_space (s : string) : string :=
  match s with
  | EmptyString => EmptyString
  | String c s' =>
      if Ascii.eqb c Text.space then EmptyString else String c (before_space s')
  end.

(** The index a notice names: the word after ["Index "], read as a
    decimal number. *)
Definition notice_index (line : string) : option Z :=
  match after_prefix "Index " line with
  | Some rest => option_map Z.of_int (NilZero.int_of_string (before_space rest))
  | None => None
  end.

(** The frame after the flag loop, line 229. *)
Definition flagged_transcript (f : csv) : DataFrame :=
  flagged_frame (cleaned_frame f) keys.

(** Index [i] is taken as a training target of the character. *)
Definition selected (f : csv) (character : string) (i : Z) : Prop :=
  exists df indexes, prepare f character = Ok (df, indexes) /\ In i indexes.

(** The row of the cleaned transcript at index [i] has the character as
    its speaker and more than five words, counted as whitespace-delimited
    tokens, and [i > 0]. *)
Definition qualifies (f : csv) (character : string) (i : Z) : Prop :=
  exists df r d,
    clean_and_count (of_csv f) = Ok df
    /\ In (i, r) (rows df)
    /\ r "Speaker" = Str character
    /\ r "Dialogue" = Str d
    /\ 5 < whitespace_tokens d
    /\ 0 < i.

(** Every whitespace character of [s] is a space that a character other
    than whitespace follows. *)
Fixpoint single_spaces (s : string) : bool :=
  match s with
  | EmptyString => true
  | String c s' =>
      (if Text.is_space c
       then Ascii.eqb c Text.space
            && match s' with
               | String c' _ => negb (Text.is_space c')
               | EmptyString => false
               end
       else true)
      && single_spaces s'
  end.

(** The words of the dialogue, once stripped, are separated by single
    spaces. *)
Definition single_spaced (dialogue : string) : bool :=
  single_spaces (Text.strip dialogue).

(** The labels of the frame go up strictly. *)
Definition sorted_index (df : DataFrame) : Prop :=
  StronglySorted Z.lt (index df).

(** What [huggingface_hub.login] leaves in the events. *)
Definition login_events (token : option string) : list event :=
  match token with
  | Some tok => [HubLogin tok]
  | None => []
  end.

(** No value is missing in the file: [dropna] drops no row. *)
Definition complete (f : csv) : bool :=
  forallb (fun r => forallb (fun c => negb (is_nan (row_of (header f) r c)))
                            (header f))
          (records f).

(** The cleaned dialogue of record [i] of the file. *)
Definition dialogue_at (f : csv) (i : Z) : string :=
  Text.remove_paranthesis
    (text_of (row_of (header f) (nth (Z.to_nat i) (records f) []) "Dialogue")).

(** *** Example files *)

Definition transcript_header : list string := ["Speaker"; "Dialogue"].

(** The scenario of two lines, Ross then Rachel. *)
Definition two_lines : csv :=
  {| header := transcript_header;
     records :=
       [ [Str "Ross"; Str "(stands up) Hi there Rachel how are you"];
         [Str "Rachel"; Str "(laughs) I am doing great today thanks"] ] |}.

(** Two lines without a speaker, dropped by [dropna], then one of Rachel. *)
Definition late_line : csv :=
  {| header := transcript_header;
     records :=
       [ [NaN; Str "(The scene opens)"];
         [NaN; Str "(Rachel enters)"];
         [Str "Rachel"; Str "one two three four five six"] ] |}.

(** Three lines dropped by [dropna], and two answers of Rachel among the
    three lines left, at the indexes 3 and 5. *)
Definition crash_then_skip : csv :=
  {| header := transcript_header;
     records :=
       [ [NaN; Str "(Scene: Central Perk)"];
         [NaN; Str "(Ross enters)"];
         [Str "Ross"; Str "Hi"];
         [Str "Rachel"; Str "I am doing really great today"];
         [NaN; Str "(They sit down)"];
         [Str "Rachel"; Str "So what did you do last night"] ] |}.

(** A line of a speaker who is not in [character_models]. *)
Definition gunther_lines : csv :=
  {| header := transcript_header;
     records :=
       [ [Str "Ross"; Str "Hi"];
         [Str "Gunther"; Str "I have been here the whole time"] ] |}.

(** A line dropped by [dropna] before the lines of the scene. *)
Definition dropped_line : csv :=
  {| header := transcript_header;
     records :=
       [ [NaN; Str "(Scene: Central Perk)"];
         [Str "Ross"; Str "Hi"];
         [Str "Rachel"; Str "I am doing really great today"];
         [Str "Joey"; Str "How you doing"] ] |}.

(** Two answers of Rachel. *)
Definition four_lines : csv :=
  {| header := transcript_header;
     records :=
       [ [Str "Ross"; Str "(stands up) Hi there Rachel how are you"];
         [Str "Rachel"; Str "(laughs) I am doing great today thanks"];
         [Str "Ross"; Str "Good"];
         [Str "Rachel"; Str "So what did you do last night"] ] |}.

(** A table with the two columns and no record. *)
Definition empty_table : csv := {| header := transcript_header; records := [] |}.

(** A table without the [Dialogue] column. *)
Definition speakers_only : csv :=
  {| header := ["Speaker"]; records := [ [Str "Ross"]; [Str "Rachel"] ] |}.

(** A file that already has a flag column for Gunther. *)
Definition gunther_flagged : csv :=
  {| header := ["Speaker"; "Dialogue"; "Gunther_response_flag"];
     records :=
       [ [Str "Ross"; Str "Hi"; Int 0];
         [Str "Gunther"; Str "I have been here the whole time"; Int 1] ] |}.

(** A file on disk, whatever the path, and a chatbot for a character. *)
Definition disk (f : csv) : string -> option csv := fun _ => Some f.

Definition bot (character : string) : self :=
  {| model_path := "model";
     data_path := "transcript.csv";
     huggingface_token := None;
     character_name := character;
     base_model_path := "meta-llama/Meta-Llama-3-8B-Instruct" |}.

(** ** [CharacterChatBot.chat] *)

(** One entry of the conversation handed to the model, a dictionary with
    the keys [role] and [content]. *)
Record Message : Type := mkMessage {
  role : string;
  content : string
}.

(** The system text of line 59. *)
Definition chat_system_content (name : string) : string :=
  "You are " ++ name
    ++ " from the Friends TV Show. Your responses should reflect "
    ++ name ++ "'s personality and speech patterns."
    ++ String Text.nl EmptyString.

(** Lines 61-63: each past exchange adds the user's turn, then the
    assistant's. *)
Fixpoint append_history (messages : list Message)
  (history : list (string * string)) : list Message :=
  match history with
  | [] => messages
  | message_and_response :: rest =>
      append_history
        ((messages ++ [mkMessage "user" (fst message_and_response)])
           ++ [mkMessage "assistant" (snd message_and_response)])%list
        rest
  end.

(** Lines 56-65, the conversation built for one call. *)
Definition chat_messages (this : self) (message : string)
  (history : list (string * string)) : list Message :=
  let messages := [] in
  let messages :=
    (messages ++ [mkMessage "system" (chat_system_content (character_name this))])%list in
  let messages := append_history messages history in
  (messages ++ [mkMessage "user" message])%list.

(** [l[-1]] *)
Fixpoint last_item {A : Type} (l : list A) : result A :=
  match l with
  | [] => Raise IndexError
  | [x] => Ok x
  | _ :: l' => last_item l'
  end.

Section Chat.

(** [self.model], the text generation pipeline: for a conversation, the
    [generated_text] of each sequence it returns. *)
Variable model : list Message -> list (list Message).

(** Lines 55-83. *)
Definition chat (this : self) (message : string)
  (history : list (string * string)) : result Message :=
  let messages := chat_messages this message history in
  let output := model messages in
  match output with
  | [] => Raise IndexError
  | first :: _ => last_item first
  end.

End Chat.

(** ** More notions *)

(** [subseq a b]: [a] is [b] with some characters left out. *)
Inductive subseq : string -> string -> Prop :=
| subseq_nil : subseq EmptyString EmptyString
| subseq_keep (c : ascii) (a b : string) :
    subseq a b -> subseq (String c a) (String c b)
| subseq_drop (c : ascii) (a b : string) :
    subseq a b -> subseq a (String c b).

(** The number of occurrences of [c] in [s]. *)
Fixpoint count_char (c : ascii) (s : string) : nat :=
  match s with
  | EmptyString => O
  | String c' s' => if Ascii.eqb c' c then S (count_char c s') else count_char c s'
  end.

(** Every character of [s] is a space for [strip]. *)
Fixpoint all_space (s : string) : bool :=
  match s with
  | EmptyString => true
  | String c s' => Text.is_space c && all_space s'
  end.

(** The prompts of a dataset. *)
Definition dataset_prompts (ds : Dataset) : list cell :=
  match dataset_column ds "prompt" with
  | Some values => values
  | None => []
  end.

(** A line of Rachel after a dropped line, at the last position. *)
Definition last_line : csv :=
  {| header := transcript_header;
     records :=
       [ [NaN; Str "(Scene: Central Perk)"];
         [Str "Ross"; Str "Hi"];
         [Str "Rachel"; Str "I am doing really great today"] ] |}.

(** A file whose dialogue is missing in every record. *)
Definition all_missing : csv :=
  {| header := transcript_header;
     records := [ [Str "Ross"; NaN]; [Str "Rachel"; NaN] ] |}.

(** A file whose dialogue was read as numbers. *)
Definition numbered_lines : csv :=
  {| header := transcript_header;
     records := [ [Str "Ross"; Int 1]; [Str "Rachel"; Int 2] ] |}.

(** The turns of the past exchanges, in the order of the history. *)
Definition turns (history : list (string * string)) : list Message :=
  flat_map (fun mr => [mkMessage "user" (fst mr); mkMessage "assistant" (snd mr)])
           history.

(** The message has the role [r]. *)
Definition has_role (r : string) (m : Message) : bool := String.eqb (role m) r.

(** * Properties *)

(** ** The cleaner *)

Section Cleaner.

Lemma lazy_close_shorter (s rest : string) :
  Text.lazy_close s = Some rest -> (String.length rest < String.length s)%nat.
Proof.
  induction s as [|c s IH]; simpl; [discriminate|].
  destruct (Ascii.eqb c Text.rparen).
  - intros [= ->]. lia.
  - destruct (Ascii.eqb c Text.nl); [discriminate|].
    intros H. specialize (IH H). lia.
Qed.

Lemma match_paren_shorter (s rest : string) :
  Text.match_paren s = Some rest -> (String.length rest < String.length s)%nat.
Proof.
  destruct s as [|c s]; simpl; [discriminate|].
  destruct (Ascii.eqb c Text.lparen); [|discriminate].
  intros H. apply lazy_close_shorter in H. lia.
Qed.

(** More fuel than the length of the text changes nothing. *)
Lemma sub_paren_fuel (n m : nat) (s : string) :
  (String.length s <= n)%nat -> (String.length s <= m)%nat ->
  Text.sub_paren n s = Text.sub_paren m s.
Proof.
  revert m s. induction n as [|n IH]; intros m s Hn Hm.
  - destruct s; simpl in Hn; [|lia]. destruct m; reflexivity.
  - destruct m as [|m].
    + destruct s; simpl in Hm; [reflexivity|lia].
    + destruct s as [|c s]; [reflexivity|].
      cbn [Text.sub_paren]. destruct (Text.match_paren (String c s)) as [rest|] eqn:E.
      * apply match_paren_shorter in E. apply IH; simpl in *; lia.
      * f_equal. apply IH; simpl in *; lia.
Qed.

Lemma remove_paranthesis_step (c : ascii) (s : string) :
  Text.remove_paranthesis (String c s) =
  match Text.match_paren (String c s) with
  | Some rest => Text.remove_paranthesis rest
  | None => String c (Text.remove_paranthesis s)
  end.
Proof.
  unfold Text.remove_paranthesis. cbn [String.length Text.sub_paren].
  destruct (Text.match_paren (String c s)) as [rest|] eqn:E; [|reflexivity].
  apply match_paren_shorter in E. apply sub_paren_fuel; simpl in *; lia.
Qed.

(** Strong induction on the text, along the steps of the scan. *)
Lemma remove_paranthesis_ind (P : string -> string -> Prop) :
  P EmptyString EmptyString ->
  (forall c s rest, Text.match_paren (String c s) = Some rest ->
     P rest (Text.remove_paranthesis rest) ->
     P (String c s) (Text.remove_paranthesis rest)) ->
  (forall c s, Text.match_paren (String c s) = None ->
     P s (Text.remove_paranthesis s) ->
     P (String c s) (String c (Text.remove_paranthesis s))) ->
  forall s, P s (Text.remove_paranthesis s).
Proof.
  intros Hnil Hdrop Hkeep s.
  remember (String.length s) as n eqn:Hn.
  assert (Hle : (String.length s <= n)%nat) by lia. clear Hn.
  revert s Hle. induction n as [|n IH]; intros s Hle.
  - destruct s; simpl in Hle; [exact Hnil|lia].
  - destruct s as [|c s]; [exact Hnil|].
    rewrite remove_paranthesis_step.
    destruct (Text.match_paren (String c s)) as [rest|] eqn:E.
    + apply Hdrop; [exact E|]. apply IH.
      apply match_paren_shorter in E. simpl in *; lia.
    + apply Hkeep; [exact E|]. apply IH. simpl in *; lia.
Qed.

(** A closing parenthesis reachable in the cleaned text was reachable in
    the text: what the scan drops holds no newline. *)
Lemma lazy_close_remove (s : string) :
  Text.lazy_close s = None ->
  Text.lazy_close (Text.remove_paranthesis s) = None.
Proof.
  pattern s, (Text.remove_paranthesis s). apply remove_paranthesis_ind; clear s.
  - reflexivity.
  - intros c s rest E _ H. exfalso. simpl in E, H.
    destruct (Ascii.eqb c Text.lparen) eqn:Ec; [|discriminate].
    apply Ascii.eqb_eq in Ec. subst c. simpl in H. congruence.
  - intros c s _ IH H. simpl in *.
    destruct (Ascii.eqb c Text.rparen); [discriminate|].
    destruct (Ascii.eqb c Text.nl); [reflexivity|]. auto.
Qed.

Lemma remove_has_no_match (s : string) :
  Text.has_paren_match (Text.remove_paranthesis s) = false.
Proof.
  pattern s, (Text.remove_paranthesis s). apply remove_paranthesis_ind; clear s.
  - reflexivity.
  - auto.
  - intros c s E IH. cbn [Text.has_paren_match].
    replace (Text.match_paren (String c (Text.remove_paranthesis s))) with (@None string);
      [exact IH|].
    simpl in *. destruct (Ascii.eqb c Text.lparen); [|reflexivity].
    symmetry. apply lazy_close_remove. exact E.
Qed.

Lemma lazy_close_span (body post : string) :
  mem_char Text.nl body = false ->
  Text.lazy_close (body ++ String Text.rparen post) <> None.
Proof.
  induction body as [|c body IH]; simpl; [discriminate|].
  intros H. apply orb_false_iff in H. destruct H as [Hc H].
  destruct (Ascii.eqb c Text.rparen); [discriminate|].
  rewrite Hc. auto.
Qed.

Lemma append_assoc (a b c : string) : (a ++ b) ++ c = a ++ b ++ c.
Proof. induction a as [|x a IH]; simpl; [reflexivity|]. now rewrite IH. Qed.

Lemma span_has_match (pre m post : string) :
  paren_span m -> Text.has_paren_match (pre ++ m ++ post) = true.
Proof.
  intros [body [-> Hbody]].
  induction pre as [|c pre IH].
  - cbn [append Text.has_paren_match Text.match_paren].
    rewrite append_assoc. simpl.
    destruct (Text.lazy_close (body ++ String Text.rparen post)) eqn:E;
      [reflexivity|].
    exfalso. revert E. apply lazy_close_span. exact Hbody.
  - change (String c pre ++ ?x) with (String c (pre ++ x)).
    cbn [Text.has_paren_match].
    destruct (Text.match_paren _); [reflexivity|exact IH].
Qed.

Lemma remove_without_lparen (t : string) :
  mem_char Text.lparen t = false -> Text.remove_paranthesis t = t.
Proof.
  induction t as [|c t IH]; [reflexivity|].
  simpl. intros H. apply orb_false_iff in H. destruct H as [Hc H].
  rewrite remove_paranthesis_step. simpl. rewrite Hc. now rewrite IH.
Qed.

End Cleaner.

(** C4. The cleaned text holds no span that the pattern [\(.*?\)]
    matches: a search finds none, and no substring is an opening
    parenthesis, then characters other than the newline, then a closing
    parenthesis.  A text without parentheses comes back as it is. *)
Theorem C4_cleaner_removes_every_span (t : string) :
  Text.has_paren_match (Text.remove_paranthesis t) = false
  /\ (forall pre m post,
        Text.remove_paranthesis t = pre ++ m ++ post -> ~ paren_span m)
  /\ (mem_char Text.lparen t = false -> mem_char Text.rparen t = false ->
      Text.remove_paranthesis t = t).
Proof.
  split; [apply remove_has_no_match|]. split.
  - intros pre m post E Hm.
    pose proof (remove_has_no_match t) as H. rewrite E in H.
    rewrite span_has_match in H by exact Hm. discriminate.
  - intros H _. now apply remove_without_lparen.
Qed.

Lemma C4_witness :
  ~ paren_span "(waves"
  /\ Text.remove_paranthesis "Hi there Rachel" = "Hi there Rachel".
Proof.
  split.
  - apply (proj1 (proj2 (C4_cleaner_removes_every_span "(sits) Hi (waves"))
             " Hi " "(waves" "").
    reflexivity.
  - apply (proj2 (proj2 (C4_cleaner_removes_every_span "Hi there Rachel")));
      reflexivity.
Defined.

Example remove_two_spans :
  Text.remove_paranthesis "(stands up) Hi (waves) there" = " Hi  there".
Proof. reflexivity. Qed.

Example remove_nested :
  Text.remove_paranthesis "a (b (c) d) e" = "a  d) e".
Proof. reflexivity. Qed.

Example remove_across_lines :
  Text.remove_paranthesis ("(a" ++ String Text.nl "b) (c)") =
  "(a" ++ String Text.nl "b) ".
Proof. reflexivity. Qed.

(** C3.  The selector's word count is the number of pieces between single
    spaces of the stripped text, so it is never 0: it is 1 on the empty
    text and on a text of spaces, where there is no token at all. *)
Theorem C3_word_count_of_empty_text_is_one :
  Text.number_of_words "" = 1
  /\ Text.number_of_words "   " = 1
  /\ whitespace_tokens "" = 0
  /\ whitespace_tokens "   " = 0
  /\ Text.number_of_words "Hi  there" = 3
  /\ whitespace_tokens "Hi  there" = 2.
Proof. repeat split; reflexivity. Qed.

Lemma split_nonempty (sep : ascii) (s : string) : Text.split sep s <> [].
Proof.
  induction s as [|c s IH]; simpl; [discriminate|].
  destruct (Ascii.eqb c sep); [discriminate|].
  destruct (Text.split sep s); discriminate.
Qed.

Lemma number_of_words_positive (d : string) : 1 <= Text.number_of_words d.
Proof.
  unfold Text.number_of_words.
  pose proof (split_nonempty Text.space (Text.strip d)) as H.
  destruct (Text.split Text.space (Text.strip d)); [congruence|].
  cbn [List.length]. lia.
Qed.

(** ** Lists, results and frames *)

Section Lists.

Context {A B C : Type}.

Lemma combine_map_same (g : A -> B) (l : list A) :
  combine l (map g l) = map (fun x => (x, g x)) l.
Proof. induction l as [|x l IH]; simpl; [reflexivity|]. now rewrite IH. Qed.

Lemma combine_map_both (f : A -> B) (g : A -> C) (l : list A) :
  combine (map f l) (map g l) = map (fun x => (f x, g x)) l.
Proof. induction l as [|x l IH]; simpl; [reflexivity|]. now rewrite IH. Qed.

Lemma filter_map_fst (p : A -> bool) (l : list A) :
  map fst (filter snd (map (fun x => (x, p x)) l)) = filter p l.
Proof.
  induction l as [|x l IH]; simpl; [reflexivity|].
  destruct (p x); simpl; now rewrite IH.
Qed.

Lemma traverse_map_ok (f : B -> result C) (h : A -> B) (k : A -> C) (l : list A) :
  (forall x, In x l -> f (h x) = Ok (k x)) ->
  traverse f (map h l) = Ok (map k l).
Proof.
  induction l as [|x l IH]; intros H; simpl; [reflexivity|].
  rewrite (H x (or_introl eq_refl)). simpl.
  rewrite IH by (intros y Hy; apply H; now right). reflexivity.
Qed.

End Lists.

Section Frames.

Lemma has_column_add (c c' : string) (cols : list string) :
  has_column c (add_column c' cols) = String.eqb c c' || has_column c cols.
Proof.
  unfold add_column. destruct (has_column c' cols) eqn:E.
  - destruct (String.eqb c c') eqn:Ec; [|reflexivity].
    apply String.eqb_eq in Ec. subst. now rewrite E.
  - unfold has_column. rewrite existsb_app. simpl.
    rewrite orb_false_r. apply orb_comm.
Qed.

Lemma add_column_present (c : string) (cols : list string) :
  has_column c cols = true -> add_column c cols = cols.
Proof. unfold add_column. now intros ->. Qed.

Lemma setitem_map (df : DataFrame) (c : string) (g : Z * row -> cell) :
  setitem df c (map g (rows df)) =
  {| columns := add_column c (columns df);
     rows := map (fun lr => (fst lr, update (snd lr) c (g lr))) (rows df) |}.
Proof.
  unfold setitem. rewrite combine_map_same, map_map. reflexivity.
Qed.

Lemma label_from_labels (start : Z) (names : list string) (recs : list (list cell)) :
  forall lr, In lr (label_from start names recs) -> start <= fst lr.
Proof.
  revert start. induction recs as [|r recs IH]; intros start lr; simpl; [tauto|].
  intros [<-|H]; simpl; [lia|]. apply IH in H. lia.
Qed.

Lemma label_from_sorted (start : Z) (names : list string) (recs : list (list cell)) :
  StronglySorted Z.lt (map fst (label_from start names recs)).
Proof.
  revert start. induction recs as [|r recs IH]; intros start; simpl; constructor.
  - apply IH.
  - apply Forall_forall. intros l Hl. apply in_map_iff in Hl.
    destruct Hl as [lr [<- Hlr]]. apply label_from_labels in Hlr. lia.
Qed.

Lemma sorted_filter {X : Type} (k : X -> Z) (p : X -> bool) (l : list X) :
  StronglySorted Z.lt (map k l) ->
  StronglySorted Z.lt (map k (filter p l)).
Proof.
  induction l as [|x l IH]; simpl; intros H; [constructor|].
  apply StronglySorted_inv in H. destruct H as [Hs Hall].
  destruct (p x); simpl; [|now apply IH].
  constructor; [now apply IH|].
  rewrite Forall_forall in *. intros y Hy. apply Hall.
  apply in_map_iff in Hy. destruct Hy as [z [<- Hz]].
  apply filter_In in Hz. apply in_map. tauto.
Qed.

Lemma sorted_combine {X Y : Type} (k : X -> Z) (l : list X) (m : list Y) :
  StronglySorted Z.lt (map k l) ->
  StronglySorted Z.lt (map (fun xy => k (fst xy)) (combine l m)).
Proof.
  revert m. induction l as [|x l IH]; intros m H; [constructor|].
  destruct m as [|y m]; [constructor|]. simpl in *.
  apply StronglySorted_inv in H. destruct H as [Hs Hall].
  constructor; [now apply IH|].
  rewrite Forall_forall in *. intros z Hz. apply Hall.
  apply in_map_iff in Hz. destruct Hz as [[x' y'] [<- Hxy]].
  apply in_combine_l in Hxy. now apply in_map.
Qed.

(** The labels of the frame after [dropna] go up strictly, from 0 on. *)
Lemma dropna_sorted (f : csv) :
  StronglySorted Z.lt (index (dropna (of_csv f))).
Proof. apply (sorted_filter fst), label_from_sorted. Qed.

Lemma dropna_dialogue (f : csv) (lr : Z * row) :
  has_dialogue f = true ->
  In lr (rows (dropna (of_csv f))) ->
  exists s, snd lr "Dialogue" = Str s.
Proof.
  unfold has_dialogue. intros H Hin. apply andb_true_iff in H.
  destruct H as [Hcol Htext].
  apply filter_In in Hin. destruct Hin as [Hin Hna].
  assert (Hd : is_nan (snd lr "Dialogue") = false).
  { rewrite forallb_forall in Hna. unfold has_column in Hcol.
    apply existsb_exists in Hcol. destruct Hcol as [c [Hc Ec]].
    apply String.eqb_eq in Ec. subst c.
    specialize (Hna _ Hc). now apply negb_true_iff in Hna. }
  assert (Ht : text_or_missing (snd lr "Dialogue") = true).
  { simpl in Hin. clear Hna Hd. revert Hin. generalize 0.
    induction (records f) as [|r recs IH]; intros start; simpl; [tauto|].
    simpl in Htext. apply andb_true_iff in Htext. destruct Htext as [Hr Hrest].
    intros [<-|Hin]; [exact Hr|]. now apply (IH Hrest (start + 1)). }
  destruct (snd lr "Dialogue"); try discriminate. now eexists.
Qed.

End Frames.

Section Cleaning.

Lemma update_same (r : row) (c : string) (v : cell) : update r c v c = v.
Proof. unfold update. now rewrite String.eqb_refl. Qed.

Lemma update_other (r : row) (c c' : string) (v : cell) :
  String.eqb c' c = false -> update r c v c' = r c'.
Proof. unfold update. now intros ->. Qed.

Lemma add_column_twice (c : string) (cols : list string) :
  add_column c (add_column c cols) = add_column c cols.
Proof.
  apply add_column_present. rewrite has_column_add.
  now rewrite String.eqb_refl.
Qed.

(** Assigning to a column a series computed row by row. *)
Lemma setitem_rows {X : Type} (cols : list string) (l : list X)
  (F : X -> Z * row) (c : string) (g : X -> cell) :
  setitem {| columns := cols; rows := map F l |} c (map g l) =
  {| columns := add_column c cols;
     rows := map (fun x => (fst (F x), update (snd (F x)) c (g x))) l |}.
Proof.
  unfold setitem. cbn [columns rows]. rewrite combine_map_both, map_map.
  reflexivity.
Qed.

Lemma setitem_rows_plain (cols : list string) (l : list (Z * row)) (c : string)
  (g : Z * row -> cell) :
  setitem {| columns := cols; rows := l |} c (map g l) =
  {| columns := add_column c cols;
     rows := map (fun lr => (fst lr, update (snd lr) c (g lr))) l |}.
Proof. apply (setitem_map {| columns := cols; rows := l |}). Qed.

Lemma getitem_rows (cols : list string) (l : list (Z * row)) (c : string) :
  has_column c cols = true ->
  getitem {| columns := cols; rows := l |} c = Ok (map (fun r => snd r c) l).
Proof. unfold getitem. cbn [columns rows]. now intros ->. Qed.

Lemma getitem_missing (df : DataFrame) (c : string) :
  has_column c (columns df) = false -> getitem df c = Raise (KeyError c).
Proof. unfold getitem. now intros ->. Qed.

Lemma str_accessor_texts (object : bool) (series : list cell) :
  forallb is_str series = true ->
  (series = [] -> object = true) ->
  str_accessor object series = Ok series.
Proof.
  intros Hall Hnil. destruct series as [|x series].
  - cbn. now rewrite Hnil.
  - unfold str_accessor. now rewrite Hall.
Qed.

Lemma traverse_clean_raises (l : list cell) :
  (exists x, In x l /\ is_str x = false) ->
  traverse clean_cell l = Raise TypeError.
Proof.
  induction l as [|y l IH]; intros [x [Hin Hx]]; [destruct Hin|].
  cbn [traverse]. destruct y as [|s| |]; try reflexivity.
  cbn [clean_cell bind_result].
  destruct Hin as [<-|Hin]; [discriminate Hx|].
  rewrite IH; [reflexivity|]. now exists x.
Qed.

(** Lines 209-212 on a file whose [Dialogue] column is there and holds
    texts in the rows that [dropna] keeps: the cleaned transcript, unless
    the [.str] accessor of line 211 refuses the column. *)
Lemma clean_and_count_eq (f : csv) :
  has_column "Dialogue" (header f) = true ->
  (forall lr, In lr (rows (dropna (of_csv f))) ->
              exists s, snd lr "Dialogue" = Str s) ->
  clean_and_count (of_csv f) =
  if str_accepts f then Ok (cleaned_frame f) else Raise AttributeError.
Proof.
  intros Hcol Hstr.
  unfold clean_and_count, cleaned_frame, str_accepts.
  unfold dropna in *. cbn [columns rows of_csv] in *.
  remember (filter _ _) as l eqn:El in *. clear El.
  remember (object_dtype _ _) as object eqn:Eo. clear Eo.
  rewrite getitem_rows by exact Hcol. cbn [bind_result].
  rewrite (traverse_map_ok clean_cell (fun r : Z * row => snd r "Dialogue")
             (fun r => Str (Text.remove_paranthesis (text_of (snd r "Dialogue"))))).
  2:{ intros lr Hlr. destruct (Hstr lr Hlr) as [s ->]. reflexivity. }
  cbn [bind_result]. rewrite setitem_rows_plain.
  rewrite getitem_rows by (rewrite has_column_add; reflexivity).
  cbn [bind_result]. rewrite map_map.
  unfold row in *.
  destruct (match l with [] => object | _ :: _ => true end) eqn:Eacc.
  - rewrite str_accessor_texts.
    2:{ apply forallb_forall. intros x Hx. apply in_map_iff in Hx.
        destruct Hx as [lr [<- _]]. cbn [fst snd]. now rewrite update_same. }
    2:{ intros E. destruct l; [exact Eacc|discriminate E]. }
    cbn [bind_result]. unfold str_strip, str_split. rewrite !map_map.
    rewrite setitem_rows.
    rewrite getitem_rows by (rewrite has_column_add; reflexivity).
    cbn [bind_result]. rewrite !map_map.
    rewrite (traverse_map_ok len_cell _
               (fun r : Z * row =>
                  Int (Text.number_of_words
                         (Text.remove_paranthesis (text_of (snd r "Dialogue")))))).
    2:{ intros lr _. cbn [fst snd]. rewrite !update_same. reflexivity. }
    cbn [bind_result]. rewrite setitem_rows.
    rewrite add_column_twice, (add_column_present "Dialogue") by exact Hcol.
    reflexivity.
  - destruct l; [|discriminate Eacc]. subst object. reflexivity.
Qed.

(** Under [has_dialogue] the accessor takes the column exactly when it was
    read as [object]. *)
Lemma accepts_object (f : csv) :
  has_dialogue f = true ->
  str_accepts f = object_dtype (of_csv f) "Dialogue".
Proof.
  intros Hf. unfold str_accepts.
  destruct (rows (dropna (of_csv f))) as [|x l] eqn:E; [reflexivity|].
  assert (Hx : In x (rows (dropna (of_csv f)))) by (rewrite E; now left).
  destruct (dropna_dialogue f x Hf Hx) as [s Hs].
  unfold dropna in Hx. cbn [rows] in Hx. apply filter_In in Hx.
  destruct Hx as [Hx _]. unfold object_dtype.
  destruct (rows (of_csv f)) as [|y l'] eqn:E'; [reflexivity|].
  symmetry. apply existsb_exists. exists x. split; [exact Hx|].
  unfold row in *. now rewrite Hs.
Qed.

(** Lines 209-212 succeed on a file with a [Dialogue] column read as
    text, and leave the cleaned transcript. *)
Lemma clean_and_count_ok (f : csv) :
  has_dialogue f = true ->
  object_dtype (of_csv f) "Dialogue" = true ->
  clean_and_count (of_csv f) = Ok (cleaned_frame f).
Proof.
  intros Hf Hobj. pose proof Hf as Hcol. unfold has_dialogue in Hcol.
  apply andb_true_iff in Hcol. destruct Hcol as [Hcol _].
  rewrite clean_and_count_eq; [|exact Hcol|].
  - now rewrite accepts_object, Hobj.
  - intros lr. now apply dropna_dialogue.
Qed.

(** A [Dialogue] column of missing values only is read as numbers: the
    [.str] accessor of line 211 raises. *)
Lemma clean_and_count_rejects (f : csv) :
  has_dialogue f = true ->
  object_dtype (of_csv f) "Dialogue" = false ->
  clean_and_count (of_csv f) = Raise AttributeError.
Proof.
  intros Hf Hobj. pose proof Hf as Hcol. unfold has_dialogue in Hcol.
  apply andb_true_iff in Hcol. destruct Hcol as [Hcol _].
  rewrite clean_and_count_eq; [|exact Hcol|].
  - now rewrite accepts_object, Hobj.
  - intros lr. now apply dropna_dialogue.
Qed.

(** Every way lines 209-212 can end. *)
Lemma clean_and_count_cases (f : csv) :
  clean_and_count (of_csv f) = Raise (KeyError "Dialogue")
  \/ clean_and_count (of_csv f) = Raise TypeError
  \/ (has_column "Dialogue" (header f) = true
      /\ (forall lr, In lr (rows (dropna (of_csv f))) ->
                     exists s, snd lr "Dialogue" = Str s)
      /\ clean_and_count (of_csv f) =
         if str_accepts f then Ok (cleaned_frame f) else Raise AttributeError).
Proof.
  destruct (has_column "Dialogue" (header f)) eqn:Hcol.
  2:{ left. unfold clean_and_count. now rewrite getitem_missing. }
  right.
  destruct (forallb (fun lr : Z * row => is_str (snd lr "Dialogue"))
                    (rows (dropna (of_csv f)))) eqn:Hall.
  - right. assert (Hstr : forall lr, In lr (rows (dropna (of_csv f))) ->
                                     exists s, snd lr "Dialogue" = Str s).
    { intros lr Hlr. rewrite forallb_forall in Hall. specialize (Hall lr Hlr).
      destruct (snd lr "Dialogue"); try discriminate. now eexists. }
    repeat split; [exact Hstr|]. now apply clean_and_count_eq.
  - left. unfold clean_and_count. unfold getitem at 1.
    cbn [dropna columns of_csv]. rewrite Hcol. cbn [bind_result].
    rewrite traverse_clean_raises; [reflexivity|].
    apply not_true_iff_false in Hall.
    assert (Hex : exists lr, In lr (rows (dropna (of_csv f)))
                             /\ is_str (snd lr "Dialogue") = false).
    { clear -Hall. induction (rows (dropna (of_csv f))) as [|x l IH].
      - now destruct Hall.
      - cbn [forallb] in Hall. destruct (is_str (snd x "Dialogue")) eqn:E.
        + destruct IH as [lr [Hlr Hs]]; [exact Hall|].
          exists lr. split; [now right|exact Hs].
        + exists x. split; [now left|exact E]. }
    destruct Hex as [lr [Hlr Hs]]. exists (snd lr "Dialogue").
    split; [|exact Hs]. apply in_map_iff. now exists lr.
Qed.

(** When lines 209-212 succeed, they leave the cleaned transcript. *)
Lemma clean_and_count_inv (f : csv) (df : DataFrame) :
  clean_and_count (of_csv f) = Ok df ->
  df = cleaned_frame f
  /\ has_column "Dialogue" (header f) = true
  /\ (forall lr, In lr (rows (dropna (of_csv f))) ->
                 exists s, snd lr "Dialogue" = Str s).
Proof.
  intros H. destruct (clean_and_count_cases f) as [E|[E|[Hcol [Hstr E]]]];
    rewrite E in H; try discriminate.
  destruct (str_accepts f); [|discriminate]. injection H as <-. tauto.
Qed.

End Cleaning.

Section ColumnNames.

Lemma append_length (a b : string) :
  String.length (a ++ b) = (String.length a + String.length b)%nat.
Proof. induction a as [|x a IH]; simpl; [reflexivity|]. now rewrite IH. Qed.

Lemma append_cancel_r (s a b : string) : a ++ s = b ++ s -> a = b.
Proof.
  revert b. induction a as [|x a IH]; intros [|y b] H.
  - reflexivity.
  - apply (f_equal String.length) in H. simpl in H.
    rewrite append_length in H. lia.
  - apply (f_equal String.length) in H. simpl in H.
    rewrite append_length in H. lia.
  - simpl in H. injection H as -> H. f_equal. now apply IH.
Qed.

(** Two characters have the same flag column only when they are the same. *)
Lemma flag_column_inj (a b : string) :
  flag_column a = flag_column b -> a = b.
Proof. apply append_cancel_r. Qed.

Lemma flag_column_eqb (a b : string) :
  String.eqb (flag_column a) (flag_column b) = String.eqb a b.
Proof.
  destruct (String.eqb a b) eqn:E.
  - apply String.eqb_eq in E. subst. apply String.eqb_refl.
  - apply String.eqb_neq. intros H. apply flag_column_inj in H.
    apply String.eqb_neq in E. contradiction.
Qed.

(** No flag column is the word count column or the speaker column. *)
Lemma flag_column_not_words (ch : string) :
  String.eqb "number_of_words" (flag_column ch) = false.
Proof.
  apply String.eqb_neq. unfold flag_column. intros H.
  destruct ch as [|x [|y ch]]; simpl in H; try discriminate.
  apply (f_equal String.length) in H. simpl in H.
  rewrite append_length in H. simpl in H. lia.
Qed.

Lemma flag_column_not_speaker (ch : string) :
  String.eqb "Speaker" (flag_column ch) = false.
Proof.
  apply String.eqb_neq. unfold flag_column. intros H.
  apply (f_equal String.length) in H. rewrite append_length in H.
  simpl in H. lia.
Qed.

Lemma flag_column_not_dialogue (ch : string) :
  String.eqb "Dialogue" (flag_column ch) = false.
Proof.
  apply String.eqb_neq. unfold flag_column. intros H.
  apply (f_equal String.length) in H. rewrite append_length in H.
  simpl in H. lia.
Qed.

End ColumnNames.

Section Flags.

Lemma flagged_columns_has (c : string) (chs cols : list string) :
  has_column c (fold_left (fun cs ch => add_column (flag_column ch) cs) chs cols)
  = existsb (fun ch => String.eqb c (flag_column ch)) chs || has_column c cols.
Proof.
  revert cols. induction chs as [|ch chs IH]; intros cols; simpl; [reflexivity|].
  rewrite IH, has_column_add.
  destruct (String.eqb c (flag_column ch)); simpl;
    [now rewrite orb_true_r | reflexivity].
Qed.

(** One turn of the flag loop, lines 225-229. *)
Lemma flag_character_ok (df : DataFrame) (ch : string) :
  has_column "Speaker" (columns df) = true ->
  has_column "number_of_words" (columns df) = true ->
  (forall lr, In lr (rows df) -> exists z, snd lr "number_of_words" = Int z) ->
  flag_character df ch = Ok (flagged_frame df [ch]).
Proof.
  destruct df as [cols l]. cbn [columns rows]. intros Hs Hw Hint.
  unfold flag_character, setitem_scalar. cbn [rows].
  rewrite setitem_rows_plain.
  rewrite !getitem_rows by (rewrite has_column_add, ?Hs, ?Hw; apply orb_true_r).
  cbn [bind_result]. unfold series_gt. rewrite !map_map.
  rewrite (traverse_map_ok _ _
             (fun lr : Z * row =>
                more_than 5 (update (snd lr) (flag_column ch) (Int 0) "number_of_words"))).
  2:{ intros lr Hlr. cbn [fst snd].
      rewrite update_other by apply flag_column_not_words.
      destruct (Hint lr Hlr) as [z ->]. reflexivity. }
  cbn [bind_result]. f_equal.
  unfold loc_set, flagged_frame, mask_and, series_eq. cbn [columns rows fold_left].
  f_equal. rewrite !map_map, combine_map_both, map_map, combine_map_both, map_map.
  apply map_ext. intros lr. cbn [fst snd]. unfold flag_row.
  destruct (cell_eqb _ _ && more_than _ _); reflexivity.
Qed.

Lemma flagged_frame_cons (df : DataFrame) (ch : string) (chs : list string) :
  flagged_frame (flagged_frame df [ch]) chs = flagged_frame df (ch :: chs).
Proof.
  unfold flagged_frame. cbn [columns rows fold_left]. now rewrite map_map.
Qed.

(** A turn of the loop changes the flag column of its character only. *)
Lemma flag_row_other (r : row) (ch c : string) :
  String.eqb c (flag_column ch) = false -> flag_row r ch c = r c.
Proof.
  intros H. unfold flag_row.
  destruct (cell_eqb _ _ && more_than _ _); now rewrite !update_other.
Qed.

Lemma flag_row_same (r : row) (ch : string) :
  flag_row r ch (flag_column ch) =
  if cell_eqb (r "Speaker") (Str ch) && more_than 5 (r "number_of_words")
  then Int 1 else Int 0.
Proof.
  unfold flag_row.
  rewrite (update_other r _ "Speaker") by apply flag_column_not_speaker.
  rewrite (update_other r _ "number_of_words") by apply flag_column_not_words.
  destruct (cell_eqb _ _ && more_than _ _); now rewrite !update_same.
Qed.

Lemma flag_rows_other (chs : list string) (r : row) (c : string) :
  existsb (fun ch => String.eqb c (flag_column ch)) chs = false ->
  fold_left flag_row chs r c = r c.
Proof.
  revert r. induction chs as [|ch chs IH]; intros r H; simpl in *; [reflexivity|].
  apply orb_false_iff in H. destruct H as [Hch H].
  rewrite IH by exact H. now apply flag_row_other.
Qed.

(** After the loop, the flag of a character of the list says whether the
    row's speaker is the character and its word count is above 5. *)
Lemma flag_rows_same (chs : list string) (r : row) (c : string) :
  In c chs ->
  fold_left flag_row chs r (flag_column c) =
  if cell_eqb (r "Speaker") (Str c) && more_than 5 (r "number_of_words")
  then Int 1 else Int 0.
Proof.
  revert r. induction chs as [|ch chs IH]; intros r H; [destruct H|].
  cbn [fold_left].
  destruct (in_dec string_dec c chs) as [Hin|Hout].
  - rewrite IH by exact Hin.
    rewrite (flag_row_other r ch "Speaker") by apply flag_column_not_speaker.
    rewrite (flag_row_other r ch "number_of_words") by apply flag_column_not_words.
    reflexivity.
  - destruct H as [->|H]; [|contradiction].
    rewrite flag_rows_other; [apply flag_row_same|].
    apply not_true_is_false. intros E. apply existsb_exists in E.
    destruct E as [ch [Hch E]]. rewrite flag_column_eqb in E.
    apply String.eqb_eq in E. subst. contradiction.
Qed.

(** The flag loop, lines 224-229, over any list of characters. *)
Lemma flag_characters_ok (chs : list string) :
  forall df : DataFrame,
  has_column "Speaker" (columns df) = true ->
  has_column "number_of_words" (columns df) = true ->
  (forall lr, In lr (rows df) -> exists z, snd lr "number_of_words" = Int z) ->
  flag_characters df chs = Ok (flagged_frame df chs).
Proof.
  induction chs as [|ch chs IH]; intros df Hs Hw Hint.
  - destruct df as [cols l]. unfold flagged_frame.
    cbn [flag_characters fold_left columns rows].
    f_equal. f_equal. rewrite <- (map_id l) at 1. apply map_ext.
    now intros [i r].
  - cbn [flag_characters]. rewrite flag_character_ok by assumption.
    cbn [bind_result]. rewrite <- (flagged_frame_cons df ch chs).
    apply IH.
    + cbn [flagged_frame columns fold_left].
      rewrite has_column_add, Hs. apply orb_true_r.
    + cbn [flagged_frame columns fold_left].
      rewrite has_column_add, Hw. apply orb_true_r.
    + cbn [flagged_frame rows]. intros lr Hlr. apply in_map_iff in Hlr.
      destruct Hlr as [x [<- Hx]]. cbn [snd fold_left].
      rewrite flag_row_other by apply flag_column_not_words. now apply Hint.
Qed.

(** Line 233 on a frame that has the flag column. *)
Lemma indexes_to_take_ok (df : DataFrame) (character : string) :
  has_column (flag_column character) (columns df) = true ->
  indexes_to_take df character =
  Ok (map fst (filter (fun lr => cell_eqb (snd lr (flag_column character)) (Int 1)
                                 && (0 <? fst lr)) (rows df))).
Proof.
  intros H. unfold indexes_to_take, getitem. rewrite H. cbn [bind_result].
  f_equal. unfold index, select, mask_and, series_eq, index_gt, index.
  cbn [rows]. f_equal.
  rewrite !map_map, combine_map_both, map_map, combine_map_same.
  apply (filter_map_fst (fun lr : Z * row =>
     cell_eqb (snd lr (flag_column character)) (Int 1) && (0 <? fst lr))).
Qed.

End Flags.

Section Selection.

Lemma cell_eqb_str (x : cell) (s : string) :
  cell_eqb x (Str s) = true <-> x = Str s.
Proof.
  destruct x; simpl; try (split; discriminate).
  rewrite String.eqb_eq. split; [now intros -> | now intros [= ->]].
Qed.

Lemma cleaned_columns (f : csv) :
  well_formed f = true ->
  has_column "Speaker" (columns (cleaned_frame f)) = true
  /\ has_column "Dialogue" (columns (cleaned_frame f)) = true
  /\ has_column "number_of_words" (columns (cleaned_frame f)) = true.
Proof.
  unfold well_formed, has_dialogue. intros H.
  apply andb_true_iff in H. destruct H as [Hs H].
  apply andb_true_iff in H. destruct H as [Hd _].
  cbn [cleaned_frame columns]. rewrite !has_column_add, Hs, Hd.
  repeat split; reflexivity.
Qed.

(** The fields of a row of the cleaned transcript. *)
Lemma cleaned_row_fields (f : csv) (lr : Z * row) :
  has_dialogue f = true ->
  In lr (rows (cleaned_frame f)) ->
  exists r0 s,
    In (fst lr, r0) (rows (dropna (of_csv f)))
    /\ r0 "Dialogue" = Str s
    /\ snd lr "Speaker" = r0 "Speaker"
    /\ snd lr "Dialogue" = Str (Text.remove_paranthesis s)
    /\ snd lr "number_of_words" = Int (Text.number_of_words (Text.remove_paranthesis s)).
Proof.
  intros Hf Hin. cbn [cleaned_frame rows] in Hin. apply in_map_iff in Hin.
  destruct Hin as [[i r0] [<- Hin]].
  destruct (dropna_dialogue f (i, r0) Hf Hin) as [s Hs]. cbn [fst snd] in *.
  exists r0, s. unfold clean_row. rewrite Hs. cbn [text_of].
  repeat split; try assumption; reflexivity.
Qed.

Lemma cleaned_words (f : csv) (lr : Z * row) :
  In lr (rows (cleaned_frame f)) ->
  exists z, snd lr "number_of_words" = Int z.
Proof.
  cbn [cleaned_frame rows]. intros H. apply in_map_iff in H.
  destruct H as [lr0 [<- _]]. cbn [snd]. unfold clean_row.
  rewrite update_same. now eexists.
Qed.

(** Lines 213-233 after a cleaning that succeeded, on a file with a
    [Speaker] column: the flagged frame, and the labels of the rows whose
    flag is 1 and whose label is above 0; a [KeyError] when the frame has
    no flag column for the character. *)
Lemma prepare_after (f : csv) (c : string) :
  has_column "Speaker" (header f) = true ->
  clean_and_count (of_csv f) = Ok (cleaned_frame f) ->
  prepare f c =
  if has_column (flag_column c) (columns (flagged_transcript f))
  then Ok (flagged_transcript f,
           map fst (filter (fun lr => cell_eqb (snd lr (flag_column c)) (Int 1)
                                      && (0 <? fst lr))
                           (rows (flagged_transcript f))))
  else Raise (KeyError (flag_column c)).
Proof.
  intros Hs Hclean. unfold prepare. rewrite Hclean. cbn [bind_result].
  rewrite flag_characters_ok.
  - cbn [bind_result]. fold (flagged_transcript f).
    destruct (has_column (flag_column c) (columns (flagged_transcript f))) eqn:E.
    + rewrite indexes_to_take_ok by exact E. reflexivity.
    + unfold indexes_to_take. rewrite getitem_missing by exact E. reflexivity.
  - cbn [cleaned_frame columns]. rewrite has_column_add, Hs. apply orb_true_r.
  - cbn [cleaned_frame columns]. now rewrite has_column_add.
  - apply cleaned_words.
Qed.

Lemma well_formed_parts (f : csv) :
  well_formed f = true ->
  has_column "Speaker" (header f) = true /\ has_dialogue f = true.
Proof. unfold well_formed. intros H. now apply andb_true_iff in H. Qed.

(** Lines 209-233 on a transcript file whose dialogue is read as text. *)
Lemma prepare_ok (f : csv) (c : string) :
  well_formed f = true ->
  object_dtype (of_csv f) "Dialogue" = true ->
  prepare f c =
  if has_column (flag_column c) (columns (flagged_transcript f))
  then Ok (flagged_transcript f,
           map fst (filter (fun lr => cell_eqb (snd lr (flag_column c)) (Int 1)
                                      && (0 <? fst lr))
                           (rows (flagged_transcript f))))
  else Raise (KeyError (flag_column c)).
Proof.
  intros Hf Hobj. destruct (well_formed_parts f Hf) as [Hs Hd].
  apply prepare_after; [exact Hs|]. now apply clean_and_count_ok.
Qed.

Lemma flagged_has_known (f : csv) (c : string) :
  In c keys ->
  has_column (flag_column c) (columns (flagged_transcript f)) = true.
Proof.
  intros H. unfold flagged_transcript, flagged_frame. cbn [columns].
  rewrite flagged_columns_has. apply orb_true_iff. left.
  apply existsb_exists. exists c. split; [exact H|apply String.eqb_refl].
Qed.

Lemma filter_relabel (G : Z * row -> Z * row) (P : Z * row -> bool)
  (l : list (Z * row)) :
  (forall x, fst (G x) = fst x) ->
  map fst (filter P (map G l)) = map fst (filter (fun x => P (G x)) l).
Proof.
  intros HG. induction l as [|x l IH]; [reflexivity|].
  cbn [map filter]. destruct (P (G x)); cbn [map]; now rewrite IH, ?HG.
Qed.

(** The indexes taken for a known character. *)
Lemma prepare_known_after (f : csv) (c : string) :
  has_column "Speaker" (header f) = true ->
  clean_and_count (of_csv f) = Ok (cleaned_frame f) ->
  In c keys ->
  prepare f c =
  Ok (flagged_transcript f,
      map fst (filter (fun lr => cell_eqb (snd lr "Speaker") (Str c)
                                 && more_than 5 (snd lr "number_of_words")
                                 && (0 <? fst lr))
                      (rows (cleaned_frame f)))).
Proof.
  intros Hs Hclean Hc. rewrite prepare_after, flagged_has_known by assumption.
  f_equal. f_equal. unfold flagged_transcript, flagged_frame. cbn [rows].
  rewrite filter_relabel by reflexivity. f_equal. apply filter_ext.
  intros lr. cbn [fst snd]. rewrite flag_rows_same by exact Hc.
  unfold row in *.
  match goal with
  | |- context [if ?b then _ else _] => destruct b
  end; reflexivity.
Qed.

Lemma prepare_known (f : csv) (c : string) :
  well_formed f = true ->
  object_dtype (of_csv f) "Dialogue" = true ->
  In c keys ->
  prepare f c =
  Ok (flagged_transcript f,
      map fst (filter (fun lr => cell_eqb (snd lr "Speaker") (Str c)
                                 && more_than 5 (snd lr "number_of_words")
                                 && (0 <? fst lr))
                      (rows (cleaned_frame f)))).
Proof.
  intros Hf Hobj Hc. destruct (well_formed_parts f Hf) as [Hs Hd].
  apply prepare_known_after; try assumption. now apply clean_and_count_ok.
Qed.

End Selection.

(** ** The word count against the tokens *)

Section Tokens.

Lemma space_is_space (c : ascii) :
  Text.is_space c = false -> Ascii.eqb c Text.space = false.
Proof.
  intros H. destruct (Ascii.eqb c Text.space) eqn:E; [|reflexivity].
  apply Ascii.eqb_eq in E. subst c. discriminate H.
Qed.

Lemma tokens_inside (s : string) :
  single_spaces s = true ->
  tokens_from false s = count_char Text.space s.
Proof.
  induction s as [|c s IH]; [reflexivity|].
  cbn [single_spaces tokens_from count_char]. intros H.
  apply andb_true_iff in H. destruct H as [Hc Hs]. specialize (IH Hs).
  destruct (Text.is_space c) eqn:Ec.
  - apply andb_true_iff in Hc. destruct Hc as [-> Hnext].
    destruct s as [|c' s']; [discriminate Hnext|].
    apply negb_true_iff in Hnext.
    cbn [tokens_from] in *. rewrite Hnext in *. now rewrite IH.
  - now rewrite (space_is_space c Ec).
Qed.

Lemma tokens_rstrip (s : string) :
  forall b, tokens_from b (Text.rstrip s) = tokens_from b s.
Proof.
  induction s as [|c s IH]; intros b; [reflexivity|].
  assert (Hstep : tokens_from b (String c (Text.rstrip s))
                  = tokens_from b (String c s)).
  { cbn [tokens_from]. now rewrite !IH. }
  cbn [Text.rstrip]. destruct (Text.rstrip s) as [|c' r] eqn:E; [|exact Hstep].
  rewrite <- Hstep.
  destruct (Text.is_space c) eqn:Ec; cbn [tokens_from]; rewrite ?Ec;
    reflexivity.
Qed.

Lemma split_pieces (sep : ascii) (s : string) :
  List.length (Text.split sep s) = S (count_char sep s).
Proof.
  induction s as [|c s IH]; [reflexivity|].
  cbn [Text.split count_char]. destruct (Ascii.eqb c sep).
  - cbn [List.length]. now rewrite IH.
  - destruct (Text.split sep s) as [|piece pieces]; [discriminate IH|].
    exact IH.
Qed.

Lemma tokens_lstrip (s : string) :
  tokens_from true (Text.lstrip s) = tokens_from true s.
Proof.
  induction s as [|c s IH]; [reflexivity|].
  cbn [Text.lstrip tokens_from]. destruct (Text.is_space c) eqn:Ec; [exact IH|].
  cbn [tokens_from]. now rewrite Ec.
Qed.

Lemma lstrip_head (s : string) :
  match Text.lstrip s with
  | EmptyString => True
  | String c _ => Text.is_space c = false
  end.
Proof.
  induction s as [|c s IH]; [exact I|].
  cbn [Text.lstrip]. destruct (Text.is_space c) eqn:Ec; [exact IH|exact Ec].
Qed.

Lemma rstrip_head (s : string) :
  match s with
  | EmptyString => True
  | String c _ => Text.is_space c = false
  end ->
  match Text.rstrip s with
  | EmptyString => True
  | String c _ => Text.is_space c = false
  end.
Proof.
  destruct s as [|c s]; [trivial|]. cbn [Text.rstrip]. intros Hc.
  destruct (Text.rstrip s); [now rewrite Hc|exact Hc].
Qed.

(** On a dialogue whose words are separated by single spaces, the count
    of line 211 is the number of tokens, but for the dialogue without any
    word, counted 1. *)
Lemma single_spaced_count (d : string) :
  single_spaced d = true ->
  (Text.strip d = EmptyString
   /\ Text.number_of_words d = 1 /\ whitespace_tokens d = 0)
  \/ Text.number_of_words d = whitespace_tokens d.
Proof.
  unfold single_spaced. intros H.
  assert (Ht : whitespace_tokens d = Z.of_nat (tokens_from true (Text.strip d))).
  { unfold whitespace_tokens, Text.strip.
    now rewrite tokens_rstrip, tokens_lstrip. }
  pose proof (rstrip_head (Text.lstrip d) (lstrip_head d)) as Hhead.
  fold (Text.strip d) in Hhead.
  unfold Text.number_of_words. rewrite split_pieces, Ht.
  destruct (Text.strip d) as [|c s] eqn:E.
  - left. repeat split.
  - right. cbn [single_spaces tokens_from count_char] in *. rewrite Hhead in *.
    rewrite (space_is_space c Hhead). cbn [andb] in H.
    now rewrite (tokens_inside s H).
Qed.

Lemma single_spaced_threshold (d : string) :
  single_spaced d = true ->
  (5 < Text.number_of_words d <-> 5 < whitespace_tokens d).
Proof.
  intros H. destruct (single_spaced_count d H) as [[_ [-> ->]]| ->]; lia.
Qed.

Lemma label_from_in (names : list string) (recs : list (list cell)) :
  forall start lr,
  In lr (label_from start names recs) ->
  snd lr = row_of names (nth (Z.to_nat (fst lr - start)) recs []).
Proof.
  induction recs as [|r recs IH]; intros start lr; [intros []|].
  cbn [label_from In]. intros [<-|H].
  - cbn [fst snd]. now rewrite Z.sub_diag.
  - pose proof (label_from_labels _ _ _ _ H) as Hle.
    rewrite (IH _ _ H).
    replace (Z.to_nat (fst lr - start)) with (S (Z.to_nat (fst lr - (start + 1))))
      by lia.
    reflexivity.
Qed.

(** The dialogue of the row of the cleaned transcript at index [i] is the
    cleaned dialogue of record [i] of the file. *)
Lemma cleaned_row_at (f : csv) (i : Z) (r : row) :
  In (i, r) (rows (cleaned_frame f)) ->
  r "Dialogue" = Str (dialogue_at f i).
Proof.
  cbn [cleaned_frame rows]. intros H. apply in_map_iff in H.
  destruct H as [lr0 [[= <- <-] Hin]].
  unfold dropna in Hin. cbn [rows of_csv columns] in Hin.
  apply filter_In in Hin. destruct Hin as [Hin _].
  unfold dialogue_at. rewrite <- (Z.sub_0_r (fst lr0)).
  rewrite <- (label_from_in _ _ _ _ Hin). reflexivity.
Qed.

End Tokens.

(** C2, for the characters of [character_models] and a dialogue in single
    spaces.  On a transcript file whose dialogue is read as text, and for
    one of the six known characters, the indexes are computed; and when the
    words of the cleaned dialogue of record [i] are separated by single
    spaces, index [i] is taken if and only if the row at [i] of the cleaned
    transcript has the character as speaker, more than five words in its
    cleaned dialogue, and [i > 0]. *)
Theorem C2_selected_iff_qualifies (f : csv) (c : string) (i : Z) :
  well_formed f = true ->
  object_dtype (of_csv f) "Dialogue" = true ->
  In c keys ->
  single_spaced (dialogue_at f i) = true ->
  (exists df indexes, prepare f c = Ok (df, indexes))
  /\ (selected f c i <-> qualifies f c i).
Proof.
  intros Hf Hobj Hc Hsp. pose proof (prepare_known f c Hf Hobj Hc) as Hp.
  split; [eauto|].
  destruct (well_formed_parts f Hf) as [_ Hd].
  unfold selected, qualifies. rewrite Hp, (clean_and_count_ok f Hd Hobj). split.
  - intros [df [indexes [[= <- <-] Hin]]].
    apply in_map_iff in Hin. destruct Hin as [[j r] [Hj Hin]].
    cbn [fst] in Hj. subst j. apply filter_In in Hin.
    destruct Hin as [Hin Hcond]. cbn [fst snd] in Hcond.
    apply andb_true_iff in Hcond. destruct Hcond as [Hcond Hi].
    apply andb_true_iff in Hcond. destruct Hcond as [Hsp' Hw].
    destruct (cleaned_row_fields f (i, r) Hd Hin)
      as [r0 [s [_ [_ [_ [Hdia Hn]]]]]]. cbn [fst snd] in *.
    pose proof (cleaned_row_at f i r Hin) as Hat.
    rewrite Hdia in Hat. injection Hat as Hat.
    exists (cleaned_frame f), r, (dialogue_at f i).
    rewrite Hn, Hat in Hw. cbn [more_than] in Hw.
    apply cell_eqb_str in Hsp'. apply Z.ltb_lt in Hw.
    apply (single_spaced_threshold _ Hsp) in Hw.
    rewrite Hdia, Hat. repeat split; try assumption; lia.
  - intros [df [r [d [[= <-] [Hin [Hsp' [Hdia [Hw Hi]]]]]]]].
    eexists _, _. split; [reflexivity|].
    apply in_map_iff. exists (i, r). split; [reflexivity|].
    apply filter_In. split; [exact Hin|]. cbn [fst snd].
    destruct (cleaned_row_fields f (i, r) Hd Hin)
      as [r0 [s [_ [_ [_ [Hdia' Hn]]]]]]. cbn [fst snd] in *.
    pose proof (cleaned_row_at f i r Hin) as Hat.
    rewrite Hdia in Hat. injection Hat as ->.
    rewrite Hdia in Hdia'. injection Hdia' as Hs.
    rewrite Hn, Hsp', <- Hs. cbn [more_than cell_eqb]. rewrite String.eqb_refl.
    apply (single_spaced_threshold _ Hsp) in Hw.
    apply andb_true_iff. split; [apply andb_true_iff; split|]; lia.
Qed.

Lemma C2_witness :
  selected two_lines "Rachel" 1 <-> qualifies two_lines "Rachel" 1.
Proof.
  apply (C2_selected_iff_qualifies two_lines "Rachel" 1).
  - reflexivity.
  - reflexivity.
  - simpl. tauto.
  - reflexivity.
Defined.

(** C2 as stated, for every character name, fails: the line of a speaker
    who is not in [character_models] qualifies, and is not taken. *)
Lemma C2_counterexample :
  ~ (selected gunther_lines "Gunther" 1 <-> qualifies gunther_lines "Gunther" 1).
Proof.
  intros [_ H].
  assert (Hq : qualifies gunther_lines "Gunther" 1).
  { unfold qualifies. eexists _, _, _. split; [|split; [|split; [|split; [|split]]]].
    - vm_compute. reflexivity.
    - cbn. right. left. reflexivity.
    - reflexivity.
    - reflexivity.
    - reflexivity.
    - reflexivity. }
  destruct (H Hq) as [df [indexes [Hp _]]].
  vm_compute in Hp. discriminate Hp.
Qed.

(** ** The example builder *)

Section Builder.

Variable df : DataFrame.
Variable sys : string.

(** One turn of the loop, lines 239-251. *)
Lemma build_prompt_eq (prompts : list string) (ind : Z) (t : list event) :
  build_prompt df sys prompts ind t =
  if in_range df ind then
    match prompt_at df sys ind with
    | Ok p => (Ok (prompts ++ [p])%list, t)
    | Raise e => (Raise e, t)
    end
  else (Ok prompts, (t ++ [Print (out_of_bounds (ind - 1))])%list).
Proof.
  unfold build_prompt, prompt_at, in_range.
  destruct ((0 <=? ind - 1) && (ind - 1 <? len df)); [|reflexivity].
  unfold bind, lift, ret.
  destruct (iloc df (ind - 1) "Dialogue") as [previous|e]; [|reflexivity].
  cbn [bind_result].
  destruct (str_add sys previous) as [prompt|e]; [|reflexivity].
  cbn [bind_result].
  destruct (iloc df ind "Dialogue") as [current|e]; [|reflexivity].
  cbn [bind_result].
  destruct (str_add _ current); reflexivity.
Qed.

Lemma notices_cons (ind : Z) (rest : list Z) :
  notices df (ind :: rest) =
  if in_range df ind then notices df rest
  else Print (out_of_bounds (ind - 1)) :: notices df rest.
Proof. unfold notices. cbn [filter]. now destruct (in_range df ind). Qed.

(** When the loop ends, it has added one prompt for each index in range,
    in the order of the indexes, and printed one notice for each other. *)
Lemma build_prompts_ok (indexes : list Z) :
  forall (prompts prompts' : list string) (t t' : list event),
  build_prompts df sys prompts indexes t = (Ok prompts', t') ->
  exists built,
    prompts' = (prompts ++ built)%list
    /\ Forall2 (fun ind p => prompt_at df sys ind = Ok p)
               (filter (in_range df) indexes) built
    /\ t' = (t ++ notices df indexes)%list.
Proof.
  induction indexes as [|ind rest IH]; intros prompts prompts' t t' H.
  - injection H as <- <-. exists []. rewrite !app_nil_r.
    repeat split. constructor.
  - cbn [build_prompts] in H. unfold bind in H. rewrite build_prompt_eq in H.
    rewrite notices_cons. cbn [filter].
    destruct (in_range df ind).
    + destruct (prompt_at df sys ind) as [p|e] eqn:Ep; [|discriminate].
      apply IH in H. destruct H as [built [-> [Hall ->]]].
      exists (p :: built). rewrite <- app_assoc. repeat split.
      now constructor.
    + apply IH in H. destruct H as [built [-> [Hall ->]]].
      exists built. rewrite <- app_assoc. repeat split. exact Hall.
Qed.

(** The loop ends when every index in range has its two rows. *)
Lemma build_prompts_total (indexes : list Z) :
  (forall ind, In ind indexes -> in_range df ind = true ->
               exists p, prompt_at df sys ind = Ok p) ->
  forall (prompts : list string) (t : list event),
  exists built,
    build_prompts df sys prompts indexes t =
    (Ok (prompts ++ built)%list, (t ++ notices df indexes)%list).
Proof.
  induction indexes as [|ind rest IH]; intros Hall prompts t.
  - exists []. cbn. now rewrite !app_nil_r.
  - cbn [build_prompts]. unfold bind. rewrite build_prompt_eq, notices_cons.
    destruct (in_range df ind) eqn:Er.
    + destruct (Hall ind (or_introl eq_refl) Er) as [p ->].
      destruct (IH (fun i Hi => Hall i (or_intror Hi)) (prompts ++ [p])%list t)
        as [built ->].
      exists (p :: built). now rewrite <- app_assoc.
    + destruct (IH (fun i Hi => Hall i (or_intror Hi)) prompts
                   (t ++ [Print (out_of_bounds (ind - 1))])%list)
        as [built ->].
      exists built. now rewrite <- app_assoc.
Qed.

Lemma skipped_count (indexes : list Z) :
  (List.length (filter (in_range df) indexes)
   + List.length (filter (fun ind => negb (in_range df ind)) indexes)
   = List.length indexes)%nat.
Proof.
  induction indexes as [|ind rest IH]; [reflexivity|].
  cbn [filter]. destruct (in_range df ind); cbn [negb List.length]; lia.
Qed.

End Builder.

Section Notice.

Lemma digits_no_space (d : Decimal.uint) :
  mem_char Text.space (NilEmpty.string_of_uint d) = false.
Proof. induction d; cbn; try exact IHd; reflexivity. Qed.

Lemma str_of_int_no_space (z : Z) :
  mem_char Text.space (Text.str_of_int z) = false.
Proof.
  unfold Text.str_of_int, NilZero.string_of_int, NilZero.string_of_uint.
  destruct (Z.to_int z) as [d|d]; destruct d; cbn; try apply digits_no_space;
    reflexivity.
Qed.

Lemma before_space_app (a b : string) :
  mem_char Text.space a = false ->
  before_space (a ++ String Text.space b) = a.
Proof.
  induction a as [|c a IH]; [reflexivity|].
  cbn [mem_char append before_space]. intros H.
  apply orb_false_iff in H. destruct H as [-> H]. now rewrite IH.
Qed.

(** The text of an integer reads back as the integer. *)
Lemma str_of_int_reads (z : Z) :
  option_map Z.of_int (NilZero.int_of_string (Text.str_of_int z)) = Some z.
Proof.
  unfold Text.str_of_int. rewrite NilZero.isi.
  - cbn [option_map]. now rewrite DecimalZ.of_to.
  - destruct z; cbn; try discriminate.
    intros [= H]. now apply DecimalPos.Unsigned.to_uint_nonnil in H.
  - destruct z; cbn; try discriminate.
    intros [= H]. now apply DecimalPos.Unsigned.to_uint_nonnil in H.
Qed.

(** The notice of line 246 names the index it is given. *)
Lemma notice_index_out_of_bounds (i : Z) :
  notice_index (out_of_bounds i) = Some i.
Proof.
  unfold notice_index, out_of_bounds.
  change (after_prefix "Index "
            ("Index " ++ Text.str_of_int i ++ " is out of bounds"))
    with (Some (Text.str_of_int i ++ String Text.space "is out of bounds")).
  cbv beta iota. rewrite before_space_app by apply str_of_int_no_space.
  apply str_of_int_reads.
Qed.

End Notice.

(** X20.  In a turn of the loop at an index whose predecessor [ind - 1]
    is outside the rows of the frame, no prompt is added and nothing is
    raised, the notice printed is ["Index <ind - 1> is out of bounds"], in
    which the number reads back as [ind - 1], and the loop goes on with the
    other indexes. *)
Theorem skip_turn_prints_notice (df : DataFrame) (sys : string)
  (prompts : list string) (ind : Z) (rest : list Z) (t : list event) :
  ~ (0 <= ind - 1 < len df) ->
  build_prompt df sys prompts ind t =
    (Ok prompts, (t ++ [Print ("Index " ++ Text.str_of_int (ind - 1)
                                 ++ " is out of bounds")])%list)
  /\ notice_index ("Index " ++ Text.str_of_int (ind - 1) ++ " is out of bounds")
     = Some (ind - 1)
  /\ build_prompts df sys prompts (ind :: rest) t =
     build_prompts df sys prompts rest
       (t ++ [Print (out_of_bounds (ind - 1))])%list.
Proof.
  intros Hout.
  assert (Hr : in_range df ind = false).
  { unfold in_range. apply not_true_is_false. intros H.
    apply andb_true_iff in H. destruct H as [H1 H2]. lia. }
  split; [|split].
  - rewrite build_prompt_eq, Hr. reflexivity.
  - apply notice_index_out_of_bounds.
  - cbn [build_prompts]. unfold bind. rewrite build_prompt_eq, Hr. reflexivity.
Qed.

Lemma skip_turn_prints_notice_witness :
  build_prompt (flagged_transcript late_line) (system_prompt "Rachel") [] 2 [] =
  (Ok [], [Print "Index 1 is out of bounds"]).
Proof.
  apply (skip_turn_prints_notice (flagged_transcript late_line)
           (system_prompt "Rachel") [] 2 [] []).
  vm_compute. intros [_ H]. discriminate H.
Defined.

(** C5.  On a file where [dropna] leaves three rows and the indexes taken
    are 3 and 5, index 5 has its predecessor outside the rows, and yet it
    gets no notice and no dataset comes out: at index 3 the guard of line
    242 lets the turn through, line 250 reads past the last row, and
    [load_data] ends with [IndexError] before index 5 is looked at. *)
Theorem C5_skip_not_reached_after_index_error :
  (exists df,
     prepare crash_then_skip "Rachel" = Ok (df, [3; 5])
     /\ len df = 3
     /\ in_range df 3 = true
     /\ in_range df 5 = false
     /\ build_prompts df (system_prompt "Rachel") [] [3; 5] [] =
        (Raise IndexError, [])
     /\ build_prompts df (system_prompt "Rachel") [] [5] [] =
        (Ok [], [Print "Index 4 is out of bounds"]))
  /\ load_data (disk crash_then_skip) (bot "Rachel") [] =
     (Raise IndexError, [ReadCsv "transcript.csv"]).
Proof.
  split.
  - exists (flagged_transcript crash_then_skip).
    repeat split; vm_compute; reflexivity.
  - vm_compute. reflexivity.
Qed.


(** ** The whole of [load_data] *)

Section LoadData.

Variable files : string -> option csv.

(** [load_data] is [prepare], then the loop, then the assembler. *)
Lemma load_data_eq (this : self) (f : csv) (t : list event) :
  files (data_path this) = Some f ->
  load_data files this t =
  match prepare f (character_name this) with
  | Raise e => (Raise e, (t ++ [ReadCsv (data_path this)])%list)
  | Ok (df, indexes) =>
      match build_prompts df (system_prompt (character_name this)) [] indexes
                          (t ++ [ReadCsv (data_path this)])%list with
      | (Ok prompts, t') => (Ok (assemble prompts), t')
      | (Raise e, t') => (Raise e, t')
      end
  end.
Proof.
  intros Hf. unfold load_data, read_csv, prepare, bind, emit, lift, ret.
  rewrite Hf.
  destruct (clean_and_count (of_csv f)) as [df|e]; [|reflexivity].
  cbn [bind_result].
  destruct (flag_characters df keys) as [df'|e]; [|reflexivity].
  cbn [bind_result].
  destruct (indexes_to_take df' (character_name this)) as [indexes|e];
    [|reflexivity].
  cbn [bind_result].
  destruct (build_prompts _ _ _ _ _) as [[prompts|e] t']; reflexivity.
Qed.

Lemma load_data_missing_file (this : self) (t : list event) :
  files (data_path this) = None ->
  load_data files this t =
  (Raise (FileNotFoundError (data_path this)),
   (t ++ [ReadCsv (data_path this)])%list).
Proof.
  intros Hf. unfold load_data, read_csv, bind, emit, raise. now rewrite Hf.
Qed.

End LoadData.

(** ** The order of the indexes *)

Section Order.

Lemma setitem_sorted (df : DataFrame) (c : string) (series : list cell) :
  sorted_index df -> sorted_index (setitem df c series).
Proof.
  unfold sorted_index, index, setitem. cbn [rows]. intros H.
  rewrite map_map. cbn [fst]. now apply (sorted_combine fst).
Qed.

Lemma loc_set_sorted (df : DataFrame) (mask : list bool) (c : string) (v : cell) :
  sorted_index df -> sorted_index (loc_set df mask c v).
Proof.
  unfold sorted_index, index, loc_set. cbn [rows]. intros H.
  rewrite map_map.
  rewrite (map_ext _ (fun rm : Z * row * bool => fst (fst rm))).
  - now apply (sorted_combine fst).
  - intros [lr []]; reflexivity.
Qed.

Lemma select_sorted (df : DataFrame) (mask : list bool) :
  sorted_index df -> sorted_index (select df mask).
Proof.
  unfold sorted_index, index, select. cbn [rows]. intros H.
  rewrite map_map. apply (sorted_filter (fun rm : Z * row * bool => fst (fst rm))).
  now apply (sorted_combine fst).
Qed.

Lemma clean_and_count_sorted (df df' : DataFrame) :
  sorted_index (dropna df) -> clean_and_count df = Ok df' -> sorted_index df'.
Proof.
  intros Hs. unfold clean_and_count.
  destruct (getitem (dropna df) "Dialogue") as [dialogue|e]; [|discriminate].
  cbn [bind_result].
  destruct (traverse clean_cell dialogue) as [cleaned|e]; [|discriminate].
  cbn [bind_result].
  destruct (getitem _ "Dialogue") as [dialogue'|e]; [|discriminate].
  cbn [bind_result].
  destruct (str_accessor _ dialogue') as [texts|e]; [|discriminate].
  cbn [bind_result].
  destruct (getitem _ "number_of_words") as [pieces|e]; [|discriminate].
  cbn [bind_result].
  destruct (traverse len_cell pieces) as [counts|e]; [|discriminate].
  cbn [bind_result]. intros [= <-].
  now repeat apply setitem_sorted.
Qed.

Lemma flag_character_sorted (df df' : DataFrame) (ch : string) :
  sorted_index df -> flag_character df ch = Ok df' -> sorted_index df'.
Proof.
  intros Hs. unfold flag_character.
  destruct (getitem _ "Speaker") as [speaker|e]; [|discriminate].
  cbn [bind_result].
  destruct (getitem _ "number_of_words") as [words|e]; [|discriminate].
  cbn [bind_result].
  destruct (series_gt words 5) as [long|e]; [|discriminate].
  cbn [bind_result]. intros [= <-].
  now apply loc_set_sorted, setitem_sorted.
Qed.

Lemma flag_characters_sorted (chs : list string) :
  forall df df', sorted_index df -> flag_characters df chs = Ok df' ->
                 sorted_index df'.
Proof.
  induction chs as [|ch chs IH]; intros df df' Hs; cbn [flag_characters].
  - now intros [= <-].
  - destruct (flag_character df ch) as [df1|e] eqn:E; [|discriminate].
    cbn [bind_result]. apply IH. now apply (flag_character_sorted df df1 ch).
Qed.

(** The indexes taken go up strictly: they are labels of the file's
    records, in the order of the file. *)
Lemma prepare_sorted (f : csv) (c : string) (df : DataFrame) (indexes : list Z) :
  prepare f c = Ok (df, indexes) -> StronglySorted Z.lt indexes.
Proof.
  unfold prepare.
  destruct (clean_and_count (of_csv f)) as [df1|e] eqn:E1; [|discriminate].
  cbn [bind_result].
  destruct (flag_characters df1 keys) as [df2|e] eqn:E2; [|discriminate].
  cbn [bind_result].
  destruct (indexes_to_take df2 c) as [ixs|e] eqn:E3; [|discriminate].
  cbn [bind_result]. intros [= <- <-].
  unfold indexes_to_take in E3.
  destruct (getitem df2 (flag_column c)) as [flag|e]; [|discriminate].
  cbn [bind_result] in E3. injection E3 as <-.
  apply select_sorted. apply (flag_characters_sorted keys df1); [|exact E2].
  apply (clean_and_count_sorted (of_csv f)); [|exact E1].
  apply dropna_sorted.
Qed.

End Order.

(** ** The dataset assembler *)

Lemma of_dict_column (name : string) (values : list string) (start : Z) :
  map (fun r : Z * row => snd r name)
      (label_from start [name] (map (fun v => [Str v]) values))
  = map Str values.
Proof.
  revert start. induction values as [|v values IH]; intros start; [reflexivity|].
  cbn [map label_from snd row_of]. rewrite String.eqb_refl. now rewrite IH.
Qed.

Lemma assemble_eq (prompts : list string) :
  assemble prompts = [("prompt", map Str prompts)].
Proof.
  unfold assemble, from_pandas, of_dict. cbn [columns rows map].
  now rewrite of_dict_column.
Qed.

(** C9.  For every list of prompts, the empty one too, the assembler
    gives a dataset of exactly one column, named as the text field the
    trainer is told to read, ["prompt"], and holding the prompts in order. *)
Theorem C9_assembler_one_prompt_column (prompts : list string) :
  column_names (assemble prompts) = [dataset_text_field]
  /\ dataset_text_field = "prompt"
  /\ dataset_column (assemble prompts) dataset_text_field = Some (map Str prompts)
  /\ num_rows (assemble prompts) = List.length prompts
  /\ (forall this base t,
        fst (train this base (assemble prompts) t) = Ok tt
        /\ In (Train base (assemble prompts) "prompt")
              (snd (train this base (assemble prompts) t))).
Proof.
  rewrite assemble_eq. repeat split.
  - cbn. now rewrite length_map.
  - unfold train, bind, emit. cbn [snd].
    apply in_or_app. left. apply in_or_app. right. now left.
Qed.

(** C8.  Whenever [load_data] gives a dataset, its prompts are those of
    the indexes taken that are in range, one each and in their order, and
    the indexes taken go up strictly: the order of the transcript. *)
Theorem C8_examples_in_transcript_order (files : string -> option csv)
  (this : self) (f : csv) (t t' : list event) (ds : Dataset) :
  files (data_path this) = Some f ->
  load_data files this t = (Ok ds, t') ->
  exists df indexes prompts,
    prepare f (character_name this) = Ok (df, indexes)
    /\ StronglySorted Z.lt indexes
    /\ Forall2 (fun ind p =>
                  prompt_at df (system_prompt (character_name this)) ind = Ok p)
               (filter (in_range df) indexes) prompts
    /\ dataset_column ds "prompt" = Some (map Str prompts).
Proof.
  intros Hf H. rewrite (load_data_eq files this f t Hf) in H.
  destruct (prepare f (character_name this)) as [[df indexes]|e] eqn:Ep;
    [|discriminate].
  destruct (build_prompts _ _ _ _ _) as [[prompts|e] t1] eqn:Eb; [|discriminate].
  injection H as <- <-.
  apply build_prompts_ok in Eb. destruct Eb as [built [-> [Hall _]]].
  exists df, indexes, built. repeat split.
  - now apply (prepare_sorted f (character_name this) df).
  - exact Hall.
  - now rewrite assemble_eq.
Qed.

Lemma C8_witness :
  exists df indexes prompts,
    prepare four_lines "Rachel" = Ok (df, indexes)
    /\ StronglySorted Z.lt indexes
    /\ Forall2 (fun ind p => prompt_at df (system_prompt "Rachel") ind = Ok p)
               (filter (in_range df) indexes) prompts
    /\ dataset_column
         (assemble
            [system_prompt "Rachel" ++ " Hi there Rachel how are you"
               ++ String Text.nl " I am doing great today thanks";
             system_prompt "Rachel" ++ "Good"
               ++ String Text.nl "So what did you do last night"])
         "prompt" = Some (map Str prompts).
Proof.
  apply (C8_examples_in_transcript_order (disk four_lines) (bot "Rachel")
           four_lines [] [ReadCsv "transcript.csv"]).
  - reflexivity.
  - vm_compute. reflexivity.
Defined.

(** ** Files without missing values *)

Section WithoutGaps.

Lemma label_from_bounds (start : Z) (names : list string) (recs : list (list cell))
  (lr : Z * row) :
  In lr (label_from start names recs) ->
  start <= fst lr < start + Z.of_nat (List.length recs).
Proof.
  revert start. induction recs as [|r recs IH]; intros start; [intros []|].
  cbn [label_from In List.length]. intros [<-|H]; [cbn [fst]; lia|].
  apply IH in H. lia.
Qed.

Lemma label_from_nth (names : list string) (recs : list (list cell)) (k : nat) :
  forall start,
  (k < List.length recs)%nat ->
  nth_error (label_from start names recs) k =
  Some (start + Z.of_nat k, row_of names (nth k recs [])).
Proof.
  revert k. induction recs as [|r recs IH]; intros k start Hk; [simpl in Hk; lia|].
  destruct k as [|k].
  - cbn. now rewrite Z.add_0_r.
  - cbn [label_from nth_error nth]. rewrite IH by (simpl in Hk; lia).
    do 2 f_equal. lia.
Qed.

Lemma label_from_length (start : Z) (names : list string) (recs : list (list cell)) :
  List.length (label_from start names recs) = List.length recs.
Proof.
  revert start. induction recs as [|r recs IH]; intros start; [reflexivity|].
  cbn [label_from List.length]. now rewrite IH.
Qed.

(** [dropna] keeps every row of a complete file. *)
Lemma dropna_complete (f : csv) :
  complete f = true -> rows (dropna (of_csv f)) = rows (of_csv f).
Proof.
  unfold complete, dropna, of_csv. cbn [rows columns].
  generalize 0. induction (records f) as [|r recs IH]; intros start H;
    [reflexivity|].
  cbn [forallb] in H. apply andb_true_iff in H. destruct H as [Hr H].
  cbn [label_from filter snd]. rewrite Hr. now rewrite IH.
Qed.

Variable f : csv.
Hypothesis Hwell : well_formed f = true.
Hypothesis Hcomplete : complete f = true.

(** The dialogue of a complete transcript file is read as text. *)
Lemma complete_object : object_dtype (of_csv f) "Dialogue" = true.
Proof.
  destruct (well_formed_parts f Hwell) as [_ Hd].
  unfold has_dialogue in Hd. apply andb_true_iff in Hd. destruct Hd as [Hcol Ht].
  unfold complete in Hcomplete. unfold object_dtype, of_csv. cbn [rows].
  destruct (records f) as [|r recs]; [reflexivity|].
  cbn [label_from existsb snd]. cbn [forallb] in Ht, Hcomplete.
  apply andb_true_iff in Ht. destruct Ht as [Ht _].
  apply andb_true_iff in Hcomplete. destruct Hcomplete as [Hr _].
  rewrite forallb_forall in Hr. unfold has_column in Hcol.
  apply existsb_exists in Hcol. destruct Hcol as [c [Hc Ec]].
  apply String.eqb_eq in Ec. subst c. specialize (Hr _ Hc).
  destruct (row_of (header f) r "Dialogue"); try discriminate. reflexivity.
Qed.

Lemma flagged_rows_complete :
  rows (flagged_transcript f) =
  map (fun lr => (fst lr, fold_left flag_row keys (clean_row (snd lr))))
      (label_from 0 (header f) (records f)).
Proof.
  unfold flagged_transcript, flagged_frame, cleaned_frame. cbn [rows].
  rewrite dropna_complete by exact Hcomplete. cbn [of_csv rows].
  now rewrite map_map.
Qed.

Lemma flagged_len_complete :
  len (flagged_transcript f) = Z.of_nat (List.length (records f)).
Proof.
  unfold len. now rewrite flagged_rows_complete, length_map, label_from_length.
Qed.

(** In a complete file the row at position [p] is record [p], cleaned. *)
Lemma iloc_complete (p : Z) :
  0 <= p < Z.of_nat (List.length (records f)) ->
  iloc (flagged_transcript f) p "Dialogue" = Ok (Str (dialogue_at f p)).
Proof.
  intros Hp. unfold iloc. rewrite flagged_len_complete.
  replace ((- Z.of_nat (List.length (records f)) <=? p)
           && (p <? Z.of_nat (List.length (records f)))) with true
    by (symmetry; apply andb_true_iff; split; lia).
  rewrite Z.mod_small by lia.
  rewrite flagged_rows_complete, nth_error_map, label_from_nth by lia.
  cbn [option_map snd fst].
  destruct (cleaned_columns f Hwell) as [_ [Hd _]].
  unfold flagged_transcript, flagged_frame. cbn [columns].
  rewrite flagged_columns_has, Hd, orb_true_r.
  rewrite flag_rows_other by reflexivity.
  reflexivity.
Qed.

Lemma prompt_at_complete (c : string) (i : Z) :
  0 < i < Z.of_nat (List.length (records f)) ->
  prompt_at (flagged_transcript f) (system_prompt c) i =
  Ok (system_prompt c ++ dialogue_at f (i - 1)
        ++ String Text.nl (dialogue_at f i)).
Proof.
  intros Hi. unfold prompt_at. rewrite !iloc_complete by lia.
  cbn [bind_result str_add]. now rewrite !append_assoc.
Qed.

Lemma build_prompts_all (df : DataFrame) (sys : string) (P : Z -> string)
  (indexes : list Z) :
  (forall i, In i indexes -> in_range df i = true /\ prompt_at df sys i = Ok (P i)) ->
  forall prompts t,
  build_prompts df sys prompts indexes t = (Ok (prompts ++ map P indexes)%list, t).
Proof.
  induction indexes as [|i rest IH]; intros H prompts t.
  - cbn. now rewrite app_nil_r.
  - cbn [build_prompts map]. unfold bind. rewrite build_prompt_eq.
    destruct (H i (or_introl eq_refl)) as [-> ->].
    rewrite IH by (intros j Hj; apply H; now right).
    now rewrite <- app_assoc.
Qed.

(** X14.  On a complete transcript file and for a known character, [load_data]
    skips nothing and raises nothing, and the prompt of each index taken is
    the preamble, the cleaned dialogue of the record before, a newline, and
    the cleaned dialogue of the record itself. *)
Lemma load_data_without_gaps (files : string -> option csv) (this : self)
  (t : list event) :
  files (data_path this) = Some f ->
  In (character_name this) keys ->
  exists indexes,
    prepare f (character_name this) = Ok (flagged_transcript f, indexes)
    /\ load_data files this t =
       (Ok (assemble
              (map (fun i => system_prompt (character_name this)
                               ++ dialogue_at f (i - 1)
                               ++ String Text.nl (dialogue_at f i))
                   indexes)),
        (t ++ [ReadCsv (data_path this)])%list).
Proof.
  intros Hf Hc. pose proof complete_object as Hobj.
  eexists. split; [apply prepare_known; assumption|].
  rewrite (load_data_eq files this f t Hf), prepare_known by assumption.
  rewrite build_prompts_all with
    (P := fun i => system_prompt (character_name this)
                     ++ dialogue_at f (i - 1) ++ String Text.nl (dialogue_at f i));
    [reflexivity|].
  intros i Hi. apply in_map_iff in Hi. destruct Hi as [lr [<- Hlr]].
  apply filter_In in Hlr. destruct Hlr as [Hin Hcond].
  apply andb_true_iff in Hcond. destruct Hcond as [_ Hpos].
  cbn [cleaned_frame rows] in Hin. rewrite dropna_complete in Hin by exact Hcomplete.
  apply in_map_iff in Hin. destruct Hin as [lr0 [<- Hin]].
  apply label_from_bounds in Hin. cbn [fst] in *.
  assert (Hi : 0 < fst lr0 < Z.of_nat (List.length (records f))) by lia.
  split; [|now apply prompt_at_complete].
  unfold in_range. rewrite flagged_len_complete.
  apply andb_true_iff. split; lia.
Qed.

End WithoutGaps.

(** C1.  On a file whose first line is dropped for its missing speaker,
    Rachel's line has index 2, and the prompt built for it holds her own
    line where the line before it should be, and ends with the line after
    it: lines 243 and 250 read the rows by position, and the index is a
    label of the file. *)
Theorem C1_prompt_reads_rows_by_position :
  (exists df,
     clean_and_count (of_csv dropped_line) = Ok df
     /\ map (fun lr => (fst lr, snd lr "Speaker", snd lr "Dialogue")) (rows df)
        = [ (1, Str "Ross", Str "Hi");
            (2, Str "Rachel", Str "I am doing really great today");
            (3, Str "Joey", Str "How you doing") ])
  /\ (exists df, prepare dropped_line "Rachel" = Ok (df, [2]))
  /\ load_data (disk dropped_line) (bot "Rachel") [] =
     (Ok (assemble
            [system_prompt "Rachel" ++ "I am doing really great today"
               ++ String Text.nl "How you doing"]),
      [ReadCsv "transcript.csv"]).
Proof.
  split; [|split].
  - eexists. split; [vm_compute; reflexivity|reflexivity].
  - eexists. vm_compute. reflexivity.
  - vm_compute. reflexivity.
Qed.

(** ** Failures *)

Section Failures.

Variable files : string -> option csv.

Lemma clean_and_count_no_dialogue (f : csv) :
  has_column "Dialogue" (header f) = false ->
  clean_and_count (of_csv f) = Raise (KeyError "Dialogue").
Proof.
  intros H. unfold clean_and_count. now rewrite getitem_missing.
Qed.

Lemma clean_and_count_columns (df df' : DataFrame) :
  clean_and_count df = Ok df' ->
  columns df' =
  add_column "number_of_words"
    (add_column "number_of_words" (add_column "Dialogue" (columns df))).
Proof.
  unfold clean_and_count.
  destruct (getitem (dropna df) "Dialogue") as [dialogue|e]; [|discriminate].
  cbn [bind_result].
  destruct (traverse clean_cell dialogue) as [cleaned|e]; [|discriminate].
  cbn [bind_result].
  destruct (getitem _ "Dialogue") as [dialogue'|e]; [|discriminate].
  cbn [bind_result].
  destruct (str_accessor _ dialogue') as [texts|e]; [|discriminate].
  cbn [bind_result].
  destruct (getitem _ "number_of_words") as [pieces|e]; [|discriminate].
  cbn [bind_result].
  destruct (traverse len_cell pieces) as [counts|e]; [|discriminate].
  cbn [bind_result]. now intros [= <-].
Qed.

Lemma flag_characters_no_speaker (df : DataFrame) :
  has_column "Speaker" (columns df) = false ->
  flag_characters df keys = Raise (KeyError "Speaker").
Proof.
  intros H. cbn [keys character_models map fst flag_characters].
  unfold flag_character at 1.
  rewrite getitem_missing; [reflexivity|].
  unfold setitem_scalar, setitem. cbn [columns].
  rewrite has_column_add, H. now rewrite flag_column_not_speaker.
Qed.

(** Without a [Speaker] column nothing is prepared. *)
Lemma prepare_no_speaker (f : csv) (c : string) :
  has_column "Speaker" (header f) = false ->
  exists e, prepare f c = Raise e.
Proof.
  intros H. unfold prepare.
  destruct (clean_and_count (of_csv f)) as [df|e] eqn:E; [|now exists e].
  cbn [bind_result]. rewrite flag_characters_no_speaker; [now eexists|].
  rewrite (clean_and_count_columns (of_csv f) df E). cbn [of_csv columns].
  now rewrite !has_column_add, H.
Qed.

(** The flagged transcript has a flag column for the known characters
    only, unless the file came with one. *)
Lemma flagged_has_unknown (f : csv) (c : string) :
  ~ In c keys ->
  has_column (flag_column c) (header f) = false ->
  has_column (flag_column c) (columns (flagged_transcript f)) = false.
Proof.
  intros Hc Hh. unfold flagged_transcript, flagged_frame, cleaned_frame.
  cbn [columns]. rewrite flagged_columns_has, has_column_add, Hh.
  rewrite String.eqb_sym, flag_column_not_words. cbn [orb].
  rewrite orb_false_r. apply not_true_is_false. intros E.
  apply existsb_exists in E. destruct E as [ch [Hch E]].
  rewrite flag_column_eqb in E. apply String.eqb_eq in E. now subst.
Qed.

Lemma load_data_unknown (this : self) (f : csv) (t : list event) :
  files (data_path this) = Some f ->
  well_formed f = true ->
  object_dtype (of_csv f) "Dialogue" = true ->
  ~ In (character_name this) keys ->
  has_column (flag_column (character_name this)) (header f) = false ->
  load_data files this t =
  (Raise (KeyError (flag_column (character_name this))),
   (t ++ [ReadCsv (data_path this)])%list).
Proof.
  intros Hf Hw Hobj Hc Hh. rewrite (load_data_eq files this f t Hf).
  rewrite prepare_ok by assumption. now rewrite flagged_has_unknown.
Qed.

End Failures.

(** When lines 209-233 succeed, the frame is the flagged transcript. *)
Lemma prepare_inv (f : csv) (c : string) (df : DataFrame) (indexes : list Z) :
  prepare f c = Ok (df, indexes) ->
  df = flagged_transcript f
  /\ has_column "Speaker" (header f) = true
  /\ clean_and_count (of_csv f) = Ok (cleaned_frame f).
Proof.
  intros H. assert (H' := H). unfold prepare in H'.
  destruct (clean_and_count (of_csv f)) as [df1|e] eqn:E1; [|discriminate].
  destruct (clean_and_count_inv f df1 E1) as [-> _].
  cbn [bind_result] in H'.
  destruct (has_column "Speaker" (header f)) eqn:Hs.
  - rewrite (prepare_after f c Hs E1) in H.
    destruct (has_column (flag_column c) (columns (flagged_transcript f)));
      [|discriminate].
    injection H as <- _. tauto.
  - rewrite flag_characters_no_speaker in H'; [discriminate|].
    cbn [cleaned_frame columns]. now rewrite has_column_add, Hs.
Qed.

(** C6, for a missing name.  Without a character name the constructor
    raises [ValueError] at once: nothing is logged in, looked up, read or
    printed before, whatever the files and the hub. *)
Theorem C6_missing_name_fails_first (files : string -> option csv)
  (hub : string -> bool) (model_path data_path : string)
  (token : option string) (t : list event) :
  __init__ files hub model_path data_path token None t =
  (Raise (ValueError "character_name must be provided."), t).
Proof. reflexivity. Qed.

(** C6 as stated fails for the empty name: the constructor takes it.
    When the model is on the hub it ends well; when it is not, the
    transcript is read before [load_data] fails.  In neither case does it
    fail before anything else is done. *)
Lemma C6_counterexample :
  __init__ (disk two_lines) (fun _ => true) "model" "transcript.csv" None
           (Some "") [] =
    (Ok {| model_path := "model";
           data_path := "transcript.csv";
           huggingface_token := None;
           character_name := "";
           base_model_path := "meta-llama/Meta-Llama-3-8B-Instruct" |},
     [HubRepoExists "model"; LoadModel "model"])
  /\ __init__ (disk two_lines) (fun _ => false) "model" "transcript.csv" None
              (Some "") [] =
    (Raise (KeyError "_response_flag"),
     [HubRepoExists "model";
      Print "Model Not found in huggingface hub we will train our own model";
      ReadCsv "transcript.csv"])
  /\ ~ (forall hub, exists e,
          __init__ (disk two_lines) hub "model" "transcript.csv" None
                   (Some "") [] = (Raise e, [])).
Proof.
  split; [vm_compute; reflexivity|]. split; [vm_compute; reflexivity|].
  intros H. destruct (H (fun _ => true)) as [e He]. vm_compute in He.
  discriminate He.
Qed.

(** C7, for the missing columns.  A table without the [Dialogue] column
    raises [KeyError] before any row is touched, and a table without the
    [Speaker] column raises too: no dataset comes out.  A table with both
    columns and no record raises nothing for a known character: the dataset
    comes out, with no row. *)
Theorem C7_missing_column_raises (files : string -> option csv) (this : self)
  (f : csv) (t : list event) :
  files (data_path this) = Some f ->
  (has_column "Dialogue" (header f) = false ->
   load_data files this t =
   (Raise (KeyError "Dialogue"), (t ++ [ReadCsv (data_path this)])%list))
  /\ (has_column "Speaker" (header f) = false ->
      exists e, load_data files this t =
                (Raise e, (t ++ [ReadCsv (data_path this)])%list))
  /\ (well_formed f = true -> records f = [] ->
      In (character_name this) keys ->
      load_data files this t =
      (Ok (assemble []), (t ++ [ReadCsv (data_path this)])%list)).
Proof.
  intros Hf. rewrite (load_data_eq files this f t Hf). repeat split.
  - intros H. unfold prepare. now rewrite clean_and_count_no_dialogue.
  - intros H. destruct (prepare_no_speaker f (character_name this) H) as [e ->].
    now exists e.
  - intros Hw Hr Hc. rewrite prepare_known; try assumption.
    + unfold cleaned_frame, dropna, of_csv. cbn [rows columns]. rewrite Hr.
      reflexivity.
    + unfold object_dtype, of_csv. cbn [rows]. now rewrite Hr.
Qed.

Lemma C7_witness :
  load_data (disk speakers_only) (bot "Rachel") [] =
  (Raise (KeyError "Dialogue"), [ReadCsv "transcript.csv"]).
Proof.
  apply (C7_missing_column_raises (disk speakers_only) (bot "Rachel")
           speakers_only [] eq_refl).
  reflexivity.
Defined.

(** C7 as stated fails for the empty table: no error is raised, and the
    empty dataset is returned. *)
Lemma C7_counterexample :
  well_formed empty_table = true
  /\ records empty_table = []
  /\ load_data (disk empty_table) (bot "Rachel") [] =
     (Ok [("prompt", [])], [ReadCsv "transcript.csv"])
  /\ ~ (exists e t', load_data (disk empty_table) (bot "Rachel") [] = (Raise e, t')).
Proof.
  repeat split. intros [e [t' H]]. vm_compute in H. discriminate H.
Qed.

(** C10, for a file without the flag column.  For a name that is none of
    the six, on a transcript file whose dialogue is read as text and that
    has no column named after the name's flag, [load_data] raises
    [KeyError] at the selection of the flag
    column, after the file was read, and gives no dataset; the constructor
    takes the name, and ends well when the model is on the hub, and with
    that [KeyError], before any training, when it is not. *)
Theorem C10_unknown_character_key_error (files : string -> option csv)
  (hub : string -> bool) (model_path data_path : string)
  (token : option string) (name : string) (f : csv) (t : list event) :
  ~ In name keys ->
  files data_path = Some f ->
  well_formed f = true ->
  object_dtype (of_csv f) "Dialogue" = true ->
  has_column (flag_column name) (header f) = false ->
  let this := {| CharacterChatBot.model_path := model_path;
                 CharacterChatBot.data_path := data_path;
                 huggingface_token := token;
                 character_name := name;
                 base_model_path := "meta-llama/Meta-Llama-3-8B-Instruct" |} in
  load_data files this t =
    (Raise (KeyError (name ++ "_response_flag")), (t ++ [ReadCsv data_path])%list)
  /\ (hub model_path = true ->
      __init__ files hub model_path data_path token (Some name) t =
      (Ok this,
       (t ++ login_events token ++ [HubRepoExists model_path; LoadModel model_path])%list))
  /\ (hub model_path = false ->
      __init__ files hub model_path data_path token (Some name) t =
      (Raise (KeyError (name ++ "_response_flag")),
       (t ++ login_events token
          ++ [HubRepoExists model_path;
              Print "Model Not found in huggingface hub we will train our own model";
              ReadCsv data_path])%list)).
Proof.
  intros Hn Hf Hw Hobj Hh this.
  assert (Hl : forall t0, load_data files this t0 =
            (Raise (KeyError (flag_column name)), (t0 ++ [ReadCsv data_path])%list)).
  { intros t0. now apply (load_data_unknown files this f t0). }
  subst this. split; [apply Hl|]. split; intros Hhub.
  - cbv beta iota zeta delta [__init__ bind repo_exists load_model emit ret].
    rewrite Hhub.
    destruct token; cbn [login_events]; now rewrite <- ?app_assoc, ?app_nil_r.
  - cbv beta iota zeta delta [__init__ bind repo_exists print emit ret].
    rewrite Hhub.
    destruct token; cbn [login_events]; rewrite Hl;
      now rewrite <- ?app_assoc, ?app_nil_r.
Qed.

Lemma C10_witness :
  load_data (disk gunther_lines) (bot "Gunther") [] =
  (Raise (KeyError "Gunther_response_flag"), [ReadCsv "transcript.csv"]).
Proof.
  apply (C10_unknown_character_key_error (disk gunther_lines) (fun _ => false)
           "model" "transcript.csv" None "Gunther" gunther_lines []).
  - cbv [keys character_models map fst In]. intros H.
    repeat (destruct H as [H|H]; [discriminate H|]). exact H.
  - reflexivity.
  - reflexivity.
  - reflexivity.
  - reflexivity.
Defined.

(** C10 as stated fails on a file that has a column of the name of the
    flag: the selection finds it, no [KeyError] is raised, and a dataset
    comes out for a name that is none of the six. *)
Lemma C10_counterexample :
  ~ In "Gunther" keys
  /\ well_formed gunther_flagged = true
  /\ load_data (disk gunther_flagged) (bot "Gunther") [] =
     (Ok [("prompt",
           [Str (system_prompt "Gunther" ++ "Hi"
                   ++ String Text.nl "I have been here the whole time")])],
      [ReadCsv "transcript.csv"])
  /\ ~ (exists e t',
          load_data (disk gunther_flagged) (bot "Gunther") [] = (Raise e, t')).
Proof.
  split; [|split; [reflexivity|split; [vm_compute; reflexivity|]]].
  - cbv [keys character_models map fst In]. intros H.
    repeat (destruct H as [H|H]; [discriminate H|]). exact H.
  - intros [e [t' H]]. vm_compute in H. discriminate H.
Qed.

(** * Further properties *)

(** ** The cleaner, [remove_paranthesis] *)

Section CleanerMore.

Lemma remove_fixed (s : string) :
  Text.has_paren_match s = false -> Text.remove_paranthesis s = s.
Proof.
  induction s as [|c s IH]; [reflexivity|].
  cbn [Text.has_paren_match]. rewrite remove_paranthesis_step.
  destruct (Text.match_paren (String c s)); [discriminate|].
  intros H. now rewrite IH.
Qed.

(** What the lazy tail matches: up to the first closing parenthesis, with
    no newline before it. *)
Lemma lazy_close_some (s rest : string) :
  Text.lazy_close s = Some rest ->
  exists body,
    s = body ++ String Text.rparen rest
    /\ mem_char Text.rparen body = false
    /\ mem_char Text.nl body = false.
Proof.
  induction s as [|c s IH]; cbn [Text.lazy_close]; [discriminate|].
  destruct (Ascii.eqb c Text.rparen) eqn:Er.
  - intros [= ->]. apply Ascii.eqb_eq in Er. subst c.
    exists EmptyString. repeat split.
  - destruct (Ascii.eqb c Text.nl) eqn:En; [discriminate|].
    intros H. destruct (IH H) as [body [-> [Hr Hn]]].
    exists (String c body). cbn [append mem_char]. rewrite Er, En.
    repeat split; assumption.
Qed.

Lemma lazy_close_body (body rest : string) :
  mem_char Text.rparen body = false ->
  mem_char Text.nl body = false ->
  Text.lazy_close (body ++ String Text.rparen rest) = Some rest.
Proof.
  induction body as [|c body IH]; cbn [append mem_char Text.lazy_close];
    [reflexivity|].
  intros Hr Hn. apply orb_false_iff in Hr. apply orb_false_iff in Hn.
  destruct Hr as [-> Hr]. destruct Hn as [-> Hn]. now apply IH.
Qed.

Lemma lazy_close_no_rparen (s : string) :
  mem_char Text.rparen s = false -> Text.lazy_close s = None.
Proof.
  induction s as [|c s IH]; cbn [mem_char Text.lazy_close]; [reflexivity|].
  intros H. apply orb_false_iff in H. destruct H as [-> H].
  destruct (Ascii.eqb c Text.nl); [reflexivity|now apply IH].
Qed.

Lemma lazy_close_app (s rest x : string) :
  Text.lazy_close s = Some rest ->
  Text.lazy_close (s ++ x) = Some (rest ++ x).
Proof.
  induction s as [|c s IH]; cbn [append Text.lazy_close]; [discriminate|].
  destruct (Ascii.eqb c Text.rparen); [now intros [= ->]|].
  destruct (Ascii.eqb c Text.nl); [discriminate|exact IH].
Qed.

Lemma lazy_close_line (s x : string) :
  Text.lazy_close s = None ->
  Text.lazy_close (s ++ String Text.nl x) = None.
Proof.
  induction s as [|c s IH]; cbn [append Text.lazy_close]; [reflexivity|].
  destruct (Ascii.eqb c Text.rparen); [discriminate|].
  destruct (Ascii.eqb c Text.nl); [reflexivity|exact IH].
Qed.

Lemma subseq_refl (s : string) : subseq s s.
Proof. induction s; constructor; assumption. Qed.

Lemma subseq_prefix (pre a b : string) : subseq a b -> subseq a (pre ++ b).
Proof.
  intros H. induction pre as [|c pre IH]; [exact H|].
  cbn [append]. now constructor.
Qed.

Lemma subseq_length (a b : string) :
  subseq a b -> (String.length a <= String.length b)%nat.
Proof. induction 1; simpl; lia. Qed.

Lemma subseq_mem (c : ascii) (a b : string) :
  subseq a b -> mem_char c a = true -> mem_char c b = true.
Proof.
  induction 1 as [|x a b _ IH|x a b _ IH]; cbn [mem_char]; intros H.
  - exact H.
  - apply orb_true_iff in H. apply orb_true_iff.
    destruct H as [H|H]; [now left|right; now apply IH].
  - apply orb_true_iff. right. now apply IH.
Qed.

End CleanerMore.

(** X1.  Cleaning twice is cleaning once. *)
Theorem cleaner_idempotent (t : string) :
  Text.remove_paranthesis (Text.remove_paranthesis t) = Text.remove_paranthesis t.
Proof. apply remove_fixed, remove_has_no_match. Qed.

(** X2.  The cleaner only leaves characters out: the cleaned text is the
    text without some of its characters, in the same order, so it is never
    longer and holds no character the text did not hold. *)
Theorem cleaner_only_drops (t : string) :
  subseq (Text.remove_paranthesis t) t
  /\ (String.length (Text.remove_paranthesis t) <= String.length t)%nat
  /\ (forall c, mem_char c (Text.remove_paranthesis t) = true ->
                mem_char c t = true).
Proof.
  assert (H : subseq (Text.remove_paranthesis t) t).
  { pattern t, (Text.remove_paranthesis t). apply remove_paranthesis_ind.
    - constructor.
    - intros c s rest E IH. cbn [Text.match_paren] in E.
      destruct (Ascii.eqb c Text.lparen); [|discriminate].
      apply lazy_close_some in E. destruct E as [body [-> _]].
      constructor. apply subseq_prefix. now constructor.
    - intros c s _ IH. now constructor. }
  split; [exact H|]. split; [now apply subseq_length|].
  intros c. now apply subseq_mem.
Qed.

(** X3.  A text with no closing parenthesis comes back as it is, whatever
    opening parentheses it holds. *)
Theorem cleaner_keeps_unclosed (t : string) :
  mem_char Text.rparen t = false -> Text.remove_paranthesis t = t.
Proof.
  induction t as [|c t IH]; [reflexivity|].
  cbn [mem_char]. intros H. apply orb_false_iff in H. destruct H as [Hc H].
  rewrite remove_paranthesis_step. cbn [Text.match_paren].
  rewrite (lazy_close_no_rparen t H), IH by exact H.
  now destruct (Ascii.eqb c Text.lparen).
Qed.

Lemma cleaner_keeps_unclosed_witness :
  Text.remove_paranthesis "Hi (waves there" = "Hi (waves there".
Proof. apply (cleaner_keeps_unclosed "Hi (waves there"). reflexivity. Defined.

(** X4.  The cleaner works line by line: no span goes over a newline, so
    cleaning two lines is cleaning each. *)
Theorem cleaner_line_by_line (a b : string) :
  Text.remove_paranthesis (a ++ String Text.nl b) =
  Text.remove_paranthesis a ++ String Text.nl (Text.remove_paranthesis b).
Proof.
  pattern a, (Text.remove_paranthesis a). apply remove_paranthesis_ind.
  - cbn [append]. now rewrite remove_paranthesis_step.
  - intros c s rest E IH. cbn [append]. rewrite remove_paranthesis_step.
    cbn [Text.match_paren] in *.
    destruct (Ascii.eqb c Text.lparen); [|discriminate].
    now rewrite (lazy_close_app _ _ _ E).
  - intros c s E IH. cbn [append]. rewrite remove_paranthesis_step.
    cbn [Text.match_paren] in *.
    destruct (Ascii.eqb c Text.lparen).
    + now rewrite (lazy_close_line _ _ E), IH.
    + now rewrite IH.
Qed.

(** X5.  A stage direction is removed whole, with its parentheses: after
    a text with no opening parenthesis, a span that holds no closing
    parenthesis and no newline goes, and the cleaning goes on after it. *)
Theorem cleaner_removes_span (pre body post : string) :
  mem_char Text.lparen pre = false ->
  mem_char Text.rparen body = false ->
  mem_char Text.nl body = false ->
  Text.remove_paranthesis
    (pre ++ String Text.lparen (body ++ String Text.rparen post)) =
  pre ++ Text.remove_paranthesis post.
Proof.
  intros Hpre Hr Hn. induction pre as [|c pre IH].
  - cbn [append]. rewrite remove_paranthesis_step. cbn [Text.match_paren].
    now rewrite Ascii.eqb_refl, lazy_close_body.
  - cbn [mem_char] in Hpre. apply orb_false_iff in Hpre.
    destruct Hpre as [Hc Hpre]. cbn [append].
    rewrite remove_paranthesis_step. cbn [Text.match_paren]. rewrite Hc.
    now rewrite IH.
Qed.

Lemma cleaner_removes_span_witness :
  Text.remove_paranthesis "Well (sighs loudly) I (think) so" = "Well  I  so".
Proof.
  apply (cleaner_removes_span "Well " "sighs loudly" " I (think) so");
    reflexivity.
Defined.

(** ** The word count, lines 211-212 *)

Section WordCount.

Lemma split_length (sep : ascii) (s : string) :
  List.length (Text.split sep s) = S (count_char sep s).
Proof.
  induction s as [|c s IH]; [reflexivity|].
  cbn [Text.split count_char]. destruct (Ascii.eqb c sep).
  - cbn [List.length]. now rewrite IH.
  - destruct (Text.split sep s) as [|piece pieces]; [discriminate IH|].
    exact IH.
Qed.

Lemma lstrip_spaces (pad s : string) :
  all_space pad = true -> Text.lstrip (pad ++ s) = Text.lstrip s.
Proof.
  induction pad as [|c pad IH]; [reflexivity|].
  cbn [all_space append Text.lstrip]. intros H.
  apply andb_true_iff in H. destruct H as [-> H]. now apply IH.
Qed.

Lemma rstrip_all_space (pad : string) :
  all_space pad = true -> Text.rstrip pad = EmptyString.
Proof.
  induction pad as [|c pad IH]; [reflexivity|].
  cbn [all_space Text.rstrip]. intros H.
  apply andb_true_iff in H. destruct H as [Hc H]. now rewrite IH, Hc.
Qed.

Lemma rstrip_spaces (s pad : string) :
  all_space pad = true -> Text.rstrip (s ++ pad) = Text.rstrip s.
Proof.
  intros H. induction s as [|c s IH].
  - cbn [append]. now rewrite rstrip_all_space.
  - cbn [append Text.rstrip]. now rewrite IH.
Qed.

Lemma lstrip_app (s pad : string) :
  all_space pad = true ->
  Text.lstrip (s ++ pad) = Text.lstrip s ++ pad
  \/ (Text.lstrip s = EmptyString /\ all_space (Text.lstrip (s ++ pad)) = true).
Proof.
  intros H. induction s as [|c s IH].
  - right. split; [reflexivity|]. cbn [append].
    clear -H. induction pad as [|c pad IH]; [reflexivity|].
    cbn [all_space Text.lstrip] in *. apply andb_true_iff in H.
    destruct H as [Hc H]. rewrite Hc. now apply IH.
  - cbn [append Text.lstrip]. destruct (Text.is_space c); [exact IH|].
    now left.
Qed.

End WordCount.

(** X6.  The word count of a dialogue is the number of single spaces of
    the stripped dialogue, plus one. *)
Theorem number_of_words_counts_spaces (dialogue : string) :
  Text.number_of_words dialogue =
  Z.of_nat (count_char Text.space (Text.strip dialogue)) + 1.
Proof. unfold Text.number_of_words. rewrite split_length. lia. Qed.

(** X7.  The word count does not see the whitespace around the dialogue. *)
Theorem number_of_words_ignores_padding (before dialogue after : string) :
  all_space before = true -> all_space after = true ->
  Text.number_of_words (before ++ dialogue ++ after) =
  Text.number_of_words dialogue.
Proof.
  intros Hb Ha. unfold Text.number_of_words, Text.strip.
  rewrite lstrip_spaces by exact Hb.
  destruct (lstrip_app dialogue after Ha) as [->|[E Hall]].
  - now rewrite rstrip_spaces.
  - now rewrite E, rstrip_all_space.
Qed.

Lemma number_of_words_ignores_padding_witness :
  Text.number_of_words "  Hi there Rachel " = Text.number_of_words "Hi there Rachel".
Proof.
  apply (number_of_words_ignores_padding "  " "Hi there Rachel" " ");
    reflexivity.
Defined.

(** ** The indexes taken, line 233 *)

Section IndexesMore.

Lemma setitem_index_in (df : DataFrame) (c : string) (series : list cell) (l : Z) :
  In l (index (setitem df c series)) -> In l (index df).
Proof.
  unfold index, setitem. cbn [rows]. rewrite map_map. intros H.
  apply in_map_iff in H. destruct H as [[r v] [<- H]].
  apply in_combine_l in H. cbn [fst]. now apply in_map.
Qed.

Lemma loc_set_index_in (df : DataFrame) (mask : list bool) (c : string)
  (v : cell) (l : Z) :
  In l (index (loc_set df mask c v)) -> In l (index df).
Proof.
  unfold index, loc_set. cbn [rows]. rewrite map_map. intros H.
  apply in_map_iff in H. destruct H as [[r b] [<- H]].
  apply in_combine_l in H. cbn [fst snd].
  destruct b; cbn [fst]; now apply in_map.
Qed.

Lemma dropna_index_in (df : DataFrame) (l : Z) :
  In l (index (dropna df)) -> In l (index df).
Proof.
  unfold index, dropna. cbn [rows]. intros H.
  apply in_map_iff in H. destruct H as [r [<- H]].
  apply filter_In in H. apply in_map. tauto.
Qed.

Lemma clean_and_count_index_in (df df' : DataFrame) (l : Z) :
  clean_and_count df = Ok df' -> In l (index df') -> In l (index df).
Proof.
  unfold clean_and_count.
  destruct (getitem (dropna df) "Dialogue") as [dialogue|e]; [|discriminate].
  cbn [bind_result].
  destruct (traverse clean_cell dialogue) as [cleaned|e]; [|discriminate].
  cbn [bind_result].
  destruct (getitem _ "Dialogue") as [dialogue'|e]; [|discriminate].
  cbn [bind_result].
  destruct (str_accessor _ dialogue') as [texts|e]; [|discriminate].
  cbn [bind_result].
  destruct (getitem _ "number_of_words") as [pieces|e]; [|discriminate].
  cbn [bind_result].
  destruct (traverse len_cell pieces) as [counts|e]; [|discriminate].
  cbn [bind_result]. intros [= <-] H.
  now apply dropna_index_in; repeat apply setitem_index_in in H.
Qed.

Lemma flag_character_index_in (df df' : DataFrame) (ch : string) (l : Z) :
  flag_character df ch = Ok df' -> In l (index df') -> In l (index df).
Proof.
  unfold flag_character.
  destruct (getitem _ "Speaker") as [speaker|e]; [|discriminate].
  cbn [bind_result].
  destruct (getitem _ "number_of_words") as [words|e]; [|discriminate].
  cbn [bind_result].
  destruct (series_gt words 5) as [long|e]; [|discriminate].
  cbn [bind_result]. intros [= <-] H.
  apply loc_set_index_in in H. now apply setitem_index_in in H.
Qed.

Lemma flag_characters_index_in (chs : list string) :
  forall df df' l,
  flag_characters df chs = Ok df' -> In l (index df') -> In l (index df).
Proof.
  induction chs as [|ch chs IH]; intros df df' l; cbn [flag_characters].
  - now intros [= <-].
  - destruct (flag_character df ch) as [df1|e] eqn:E; [|discriminate].
    cbn [bind_result]. intros H Hl.
    apply (flag_character_index_in df df1 ch l E). now apply (IH df1 df').
Qed.

(** What a mask joined with [df.index > n] lets through. *)
Lemma select_above (n : Z) (rs : list (Z * row)) :
  forall (m : list bool) (x : Z * row),
  In x (map fst (filter snd
          (combine rs (mask_and m (map (fun l => n <? l) (map fst rs)))))) ->
  In x rs /\ n < fst x.
Proof.
  induction rs as [|r rs IH]; intros m x; [intros []|].
  destruct m as [|b m]; [intros []|].
  unfold mask_and. cbn [map combine filter fst snd].
  fold (mask_and m (map (fun l => n <? l) (map fst rs))).
  destruct (b && (n <? fst r)) eqn:E; cbn [map fst In].
  - intros [<-|H].
    + apply andb_true_iff in E. split; [now left|lia].
    + apply IH in H. split; [now right|tauto].
  - intros H. apply IH in H. split; [now right|tauto].
Qed.

Lemma indexes_to_take_in (df : DataFrame) (c : string) (indexes : list Z) (i : Z) :
  indexes_to_take df c = Ok indexes -> In i indexes ->
  In i (index df) /\ 0 < i.
Proof.
  unfold indexes_to_take.
  destruct (getitem df (flag_column c)) as [flag|e]; [|discriminate].
  cbn [bind_result]. intros [= <-]. unfold index at 1, select, index_gt, index.
  cbn [rows]. intros H. apply in_map_iff in H. destruct H as [x [<- H]].
  apply select_above in H. split; [|tauto]. apply in_map. tauto.
Qed.

(** An index taken is above 0 and is the label of a record. *)
Lemma taken_in_records (f : csv) (c : string) (df : DataFrame)
  (indexes : list Z) (i : Z) :
  prepare f c = Ok (df, indexes) -> In i indexes ->
  0 < i < Z.of_nat (List.length (records f)).
Proof.
  intros H Hi. unfold prepare in H.
  destruct (clean_and_count (of_csv f)) as [df1|e] eqn:E1; [|discriminate].
  cbn [bind_result] in H.
  destruct (flag_characters df1 keys) as [df2|e] eqn:E2; [|discriminate].
  cbn [bind_result] in H.
  destruct (indexes_to_take df2 c) as [ixs|e] eqn:E3; [|discriminate].
  cbn [bind_result] in H. injection H as <- <-.
  destruct (indexes_to_take_in df2 c ixs i E3 Hi) as [Hin Hpos].
  apply (flag_characters_index_in keys df1 df2 i E2) in Hin.
  apply (clean_and_count_index_in (of_csv f) df1 i E1) in Hin.
  unfold index, of_csv in Hin. cbn [rows] in Hin.
  apply in_map_iff in Hin. destruct Hin as [lr [<- Hlr]].
  apply label_from_bounds in Hlr. lia.
Qed.

End IndexesMore.

(** X8.  Whatever the file and the name, an index taken is the number of a
    record of the file other than the first: it is above 0 and below the
    number of records, and no index is taken twice. *)
Theorem indexes_are_records (f : csv) (c : string) (df : DataFrame)
  (indexes : list Z) :
  prepare f c = Ok (df, indexes) ->
  NoDup indexes
  /\ (forall i, In i indexes -> 0 < i < Z.of_nat (List.length (records f))).
Proof.
  intros H. split.
  - apply prepare_sorted in H. clear -H.
    induction H as [|i l Hs IH Hall]; constructor; [|exact IH].
    intros Hin. rewrite Forall_forall in Hall. specialize (Hall i Hin). lia.
  - intros i Hi. now apply (taken_in_records f c df indexes).
Qed.

Lemma indexes_are_records_witness :
  NoDup [1; 3] /\ 0 < 3 < 4.
Proof.
  assert (H : prepare four_lines "Rachel"
              = Ok (flagged_transcript four_lines, [1; 3]))
    by (vm_compute; reflexivity).
  split.
  - apply (proj1 (indexes_are_records four_lines "Rachel"
                    (flagged_transcript four_lines) [1; 3] H)).
  - apply (proj2 (indexes_are_records four_lines "Rachel"
                    (flagged_transcript four_lines) [1; 3] H) 3).
    simpl. tauto.
Defined.

(** ** The rows read by the loop, lines 242-250 *)

Section RowsRead.

Variable f : csv.
Hypothesis Hwell : well_formed f = true.

(** Every dialogue of the flagged transcript is a cleaned text. *)
Lemma flagged_dialogue (lr : Z * row) :
  In lr (rows (flagged_transcript f)) ->
  exists d, snd lr "Dialogue" = Str d /\ Text.has_paren_match d = false.
Proof.
  unfold flagged_transcript, flagged_frame, cleaned_frame. cbn [rows].
  rewrite map_map. intros H. apply in_map_iff in H.
  destruct H as [lr0 [<- _]]. cbn [fst snd].
  rewrite flag_rows_other by reflexivity.
  eexists. split; [reflexivity|]. apply remove_has_no_match.
Qed.

Lemma flagged_has_dialogue :
  has_column "Dialogue" (columns (flagged_transcript f)) = true.
Proof.
  destruct (cleaned_columns f Hwell) as [_ [Hd _]].
  unfold flagged_transcript, flagged_frame. cbn [columns].
  now rewrite flagged_columns_has, Hd, orb_true_r.
Qed.

Lemma iloc_inside (p : Z) :
  0 <= p < len (flagged_transcript f) ->
  exists d, iloc (flagged_transcript f) p "Dialogue" = Ok (Str d)
            /\ Text.has_paren_match d = false.
Proof.
  intros Hp. unfold iloc.
  replace ((- len (flagged_transcript f) <=? p) && (p <? len (flagged_transcript f)))
    with true by (symmetry; apply andb_true_iff; split; lia).
  rewrite Z.mod_small by lia. rewrite flagged_has_dialogue.
  destruct (nth_error (rows (flagged_transcript f)) (Z.to_nat p)) as [r|] eqn:E.
  - apply nth_error_In in E. destruct (flagged_dialogue r E) as [d [-> Hd]].
    now exists d.
  - apply nth_error_None in E. unfold len in Hp. lia.
Qed.

Lemma iloc_outside (df : DataFrame) (p : Z) (c : string) :
  len df <= p -> iloc df p c = Raise IndexError.
Proof.
  intros Hp. unfold iloc.
  replace (p <? len df) with false by (symmetry; apply Z.ltb_ge; lia).
  now rewrite andb_false_r.
Qed.

Lemma prompt_at_inside (sys : string) (i : Z) :
  0 < i < len (flagged_transcript f) ->
  exists p, prompt_at (flagged_transcript f) sys i = Ok p.
Proof.
  intros Hi. unfold prompt_at.
  destruct (iloc_inside (i - 1)) as [d1 [-> _]]; [lia|].
  destruct (iloc_inside i) as [d2 [-> _]]; [lia|].
  cbn [bind_result str_add]. now eexists.
Qed.

Lemma prompt_at_last (sys : string) (i : Z) :
  0 < i -> i = len (flagged_transcript f) ->
  prompt_at (flagged_transcript f) sys i = Raise IndexError.
Proof.
  intros Hi E. unfold prompt_at.
  destruct (iloc_inside (i - 1)) as [d1 [-> _]]; [lia|].
  cbn [bind_result str_add]. rewrite iloc_outside by lia. reflexivity.
Qed.

(** The loop stops with [IndexError] at an index that is the number of
    rows, before any notice is printed. *)
Lemma build_prompts_last (sys : string) (indexes : list Z) :
  StronglySorted Z.lt indexes ->
  (forall i, In i indexes -> 0 < i) ->
  In (len (flagged_transcript f)) indexes ->
  forall prompts t,
  build_prompts (flagged_transcript f) sys prompts indexes t =
  (Raise IndexError, t).
Proof.
  induction 1 as [|i rest Hs IH Hall]; intros Hpos Hin prompts t; [destruct Hin|].
  cbn [build_prompts]. unfold bind. rewrite build_prompt_eq.
  assert (Hi : 0 < i) by (apply Hpos; now left).
  destruct Hin as [->|Hin].
  - unfold in_range.
    replace ((0 <=? len (flagged_transcript f) - 1)
             && (len (flagged_transcript f) - 1 <? len (flagged_transcript f)))
      with true by (symmetry; apply andb_true_iff; split; lia).
    now rewrite prompt_at_last.
  - rewrite Forall_forall in Hall. specialize (Hall _ Hin).
    unfold in_range.
    replace ((0 <=? i - 1) && (i - 1 <? len (flagged_transcript f)))
      with true by (symmetry; apply andb_true_iff; split; lia).
    destruct (prompt_at_inside sys i) as [p ->]; [lia|].
    apply IH; [|exact Hin]. intros j Hj. apply Hpos. now right.
Qed.

End RowsRead.

(** X9.  On a transcript file and for a known character, [load_data]
    fails in two cases only.  When the [Dialogue] column was read as
    numbers, all its values missing, the [.str] accessor of line 211 raises
    [AttributeError].  When an index taken is the number of rows left after
    [dropna], the guard of line 242 lets that index through, line 250 reads
    past the last row, and [IndexError] is raised before anything is
    printed.  In every other case a dataset comes out, and the notices
    printed are those of the indexes skipped. *)
Theorem load_data_outcome (files : string -> option csv) (this : self)
  (f : csv) (t : list event) :
  files (data_path this) = Some f ->
  well_formed f = true ->
  In (character_name this) keys ->
  (object_dtype (of_csv f) "Dialogue" = false ->
   load_data files this t =
   (Raise AttributeError, (t ++ [ReadCsv (data_path this)])%list))
  /\ (object_dtype (of_csv f) "Dialogue" = true ->
      exists indexes,
        prepare f (character_name this) = Ok (flagged_transcript f, indexes)
        /\ (In (len (flagged_transcript f)) indexes ->
            load_data files this t =
            (Raise IndexError, (t ++ [ReadCsv (data_path this)])%list))
        /\ (~ In (len (flagged_transcript f)) indexes ->
            exists prompts,
              load_data files this t =
              (Ok (assemble prompts),
               ((t ++ [ReadCsv (data_path this)])
                  ++ notices (flagged_transcript f) indexes)%list))).
Proof.
  intros Hf Hw Hc. split.
  - intros Hobj. destruct (well_formed_parts f Hw) as [_ Hd].
    rewrite (load_data_eq files this f t Hf). unfold prepare.
    now rewrite clean_and_count_rejects.
  - intros Hobj.
    pose proof (prepare_known f (character_name this) Hw Hobj Hc) as Hp.
    eexists. split; [exact Hp|].
    rewrite (load_data_eq files this f t Hf), Hp.
    pose proof (fun i => taken_in_records f _ _ _ i Hp) as Hb.
    split.
    + intros Hin. rewrite (build_prompts_last f Hw); try assumption.
      * reflexivity.
      * now apply (prepare_sorted f (character_name this) (flagged_transcript f)).
      * intros i Hi. now apply Hb.
    + intros Hout.
      match goal with
      | |- context [build_prompts ?df ?sys [] ?ixs ?t0] =>
          destruct (build_prompts_total df sys ixs) with (prompts := @nil string) (t := t0)
            as [built ->]
      end.
      * intros i Hi Hr. apply (prompt_at_inside f Hw).
        unfold in_range in Hr. apply andb_true_iff in Hr. destruct Hr as [H1 H2].
        specialize (Hb i Hi).
        assert (i <> len (flagged_transcript f)) by (intros ->; contradiction).
        lia.
      * now exists built.
Qed.

Lemma load_data_outcome_witness :
  load_data (disk all_missing) (bot "Rachel") [] =
    (Raise AttributeError, [ReadCsv "transcript.csv"])
  /\ load_data (disk last_line) (bot "Rachel") [] =
     (Raise IndexError, [ReadCsv "transcript.csv"]).
Proof.
  split.
  - apply (proj1 (load_data_outcome (disk all_missing) (bot "Rachel")
                    all_missing [] eq_refl eq_refl
                    (or_introl eq_refl))).
    reflexivity.
  - destruct (proj2 (load_data_outcome (disk last_line) (bot "Rachel")
                       last_line [] eq_refl eq_refl (or_introl eq_refl))
                eq_refl) as [indexes [Hp [Hlast _]]].
    apply Hlast. vm_compute in Hp. injection Hp as <-. simpl. tauto.
Defined.

(** ** The prompts, lines 235-251 *)

Section PromptsMore.

Lemma has_match_line (a b : string) :
  Text.has_paren_match (a ++ String Text.nl b) =
  Text.has_paren_match a || Text.has_paren_match b.
Proof.
  induction a as [|c a IH]; [reflexivity|].
  cbn [append Text.has_paren_match Text.match_paren].
  destruct (Ascii.eqb c Text.lparen); [|exact IH].
  destruct (Text.lazy_close a) as [rest|] eqn:E.
  - now rewrite (lazy_close_app _ _ _ E).
  - now rewrite (lazy_close_line _ _ E).
Qed.

Lemma has_match_after (pre s : string) :
  mem_char Text.lparen pre = false ->
  Text.has_paren_match (pre ++ s) = Text.has_paren_match s.
Proof.
  induction pre as [|c pre IH]; [reflexivity|].
  cbn [mem_char]. intros H. apply orb_false_iff in H. destruct H as [Hc H].
  cbn [append Text.has_paren_match Text.match_paren]. rewrite Hc. now apply IH.
Qed.

Lemma system_prompt_known (c : string) :
  In c keys -> mem_char Text.lparen (system_prompt c) = false.
Proof.
  intros H. cbv [keys character_models map fst] in H.
  repeat (destruct H as [<-|H]; [reflexivity|]). destruct H.
Qed.

(** The training preamble is a newline, then the system text of [chat]. *)
Lemma system_prompt_chat (c : string) :
  system_prompt c = String Text.nl (chat_system_content c).
Proof. reflexivity. Qed.

(** What a prompt is made of, when it is built. *)
Lemma prompt_at_ok (df : DataFrame) (sys : string) (i : Z) (p : string) :
  prompt_at df sys i = Ok p ->
  exists d1 d2,
    iloc df (i - 1) "Dialogue" = Ok (Str d1)
    /\ iloc df i "Dialogue" = Ok (Str d2)
    /\ p = sys ++ d1 ++ String Text.nl d2.
Proof.
  unfold prompt_at.
  destruct (iloc df (i - 1) "Dialogue") as [[|d1| |]|e]; try discriminate.
  cbn [bind_result str_add].
  destruct (iloc df i "Dialogue") as [[|d2| |]|e]; try discriminate.
  cbn [bind_result str_add]. intros [= <-].
  exists d1, d2. repeat split. now rewrite !append_assoc.
Qed.

Lemma iloc_in (df : DataFrame) (p : Z) (c : string) (x : cell) :
  iloc df p c = Ok x -> exists lr, In lr (rows df) /\ snd lr c = x.
Proof.
  unfold iloc. destruct ((- len df <=? p) && (p <? len df)); [|discriminate].
  destruct (nth_error (rows df) (Z.to_nat (p mod len df))) as [r|] eqn:E;
    [|discriminate].
  destruct (has_column c (columns df)); [|discriminate].
  intros [= <-]. exists r. split; [|reflexivity]. now apply nth_error_In in E.
Qed.

Lemma Forall2_in_r {A B : Type} (R : A -> B -> Prop) (l : list A) (l' : list B)
  (y : B) :
  Forall2 R l l' -> In y l' -> exists x, In x l /\ R x y.
Proof.
  induction 1 as [|a b l l' Hab _ IH]; [intros []|].
  intros [<-|H].
  - exists a. split; [now left|exact Hab].
  - destruct (IH H) as [x [Hx Hr]]. exists x. split; [now right|exact Hr].
Qed.

(** What [load_data] returns, when it returns: the prompts of the indexes
    in range. *)
Lemma load_data_returns (files : string -> option csv)
  (this : self) (f : csv) (t t' : list event) (ds : Dataset) :
  files (data_path this) = Some f ->
  load_data files this t = (Ok ds, t') ->
  exists df indexes prompts,
    prepare f (character_name this) = Ok (df, indexes)
    /\ Forall2 (fun ind p =>
                  prompt_at df (system_prompt (character_name this)) ind = Ok p)
               (filter (in_range df) indexes) prompts
    /\ dataset_column ds "prompt" = Some (map Str prompts).
Proof.
  intros Hf H. rewrite (load_data_eq files this f t Hf) in H.
  destruct (prepare f (character_name this)) as [[df indexes]|e] eqn:Ep;
    [|discriminate].
  destruct (build_prompts _ _ _ _ _) as [[prompts|e] t1] eqn:Eb; [|discriminate].
  injection H as <- <-.
  apply build_prompts_ok in Eb. destruct Eb as [built [-> [Hall _]]].
  exists df, indexes, built. repeat split; [exact Hall|].
  now rewrite assemble_eq.
Qed.

(** The prompts of the dataset [load_data] gives, one by one. *)
Lemma load_data_prompts (files : string -> option csv) (this : self) (f : csv)
  (t t' : list event) (ds : Dataset) (p : string) :
  files (data_path this) = Some f ->
  load_data files this t = (Ok ds, t') ->
  In (Str p) (dataset_prompts ds) ->
  exists df indexes i,
    prepare f (character_name this) = Ok (df, indexes)
    /\ In i indexes
    /\ prompt_at df (system_prompt (character_name this)) i = Ok p.
Proof.
  intros Hf H Hp.
  destruct (load_data_returns files this f t t' ds Hf H)
    as [df [indexes [prompts [Hprep [Hall Hcol]]]]].
  unfold dataset_prompts in Hp. rewrite Hcol in Hp.
  apply in_map_iff in Hp. destruct Hp as [q [[= ->] Hq]].
  destruct (Forall2_in_r _ _ _ _ Hall Hq) as [i [Hi Hr]].
  apply filter_In in Hi. exists df, indexes, i. tauto.
Qed.

End PromptsMore.

(** X10.  On a transcript file and for a known character, no prompt of
    the dataset holds a parenthetical span: the dialogues were cleaned, the
    preamble has no parenthesis, and the newline between the two dialogues
    keeps a parenthesis left open in the first from closing in the second. *)
Theorem prompts_hold_no_span (files : string -> option csv) (this : self)
  (f : csv) (t t' : list event) (ds : Dataset) (p : string) :
  files (data_path this) = Some f ->
  well_formed f = true ->
  In (character_name this) keys ->
  load_data files this t = (Ok ds, t') ->
  In (Str p) (dataset_prompts ds) ->
  Text.has_paren_match p = false.
Proof.
  intros Hf Hw Hc H Hp.
  destruct (load_data_prompts files this f t t' ds p Hf H Hp)
    as [df [indexes [i [Hprep [_ Hat]]]]].
  destruct (prepare_inv f _ _ _ Hprep) as [-> _].
  apply prompt_at_ok in Hat. destruct Hat as [d1 [d2 [H1 [H2 ->]]]].
  apply iloc_in in H1. destruct H1 as [r1 [Hr1 E1]].
  apply iloc_in in H2. destruct H2 as [r2 [Hr2 E2]].
  destruct (flagged_dialogue f r1 Hr1) as [x1 [Hx1 Hm1]].
  destruct (flagged_dialogue f r2 Hr2) as [x2 [Hx2 Hm2]].
  rewrite E1 in Hx1. rewrite E2 in Hx2.
  injection Hx1 as <-. injection Hx2 as <-.
  rewrite has_match_after by now apply system_prompt_known.
  now rewrite has_match_line, Hm1, Hm2.
Qed.

Lemma prompts_hold_no_span_witness :
  Text.has_paren_match
    (system_prompt "Rachel" ++ " Hi there Rachel how are you"
       ++ String Text.nl " I am doing great today thanks") = false.
Proof.
  apply (prompts_hold_no_span (disk two_lines) (bot "Rachel") two_lines
           [] [ReadCsv "transcript.csv"]
           (assemble [system_prompt "Rachel" ++ " Hi there Rachel how are you"
                        ++ String Text.nl " I am doing great today thanks"])).
  - reflexivity.
  - reflexivity.
  - simpl. tauto.
  - vm_compute. reflexivity.
  - simpl. left. reflexivity.
Defined.

(** The dialogue of a row of the flagged transcript is the cleaned
    dialogue of a record of the file. *)
Lemma flagged_row_source (f : csv) (lr : Z * row) (d : string) :
  clean_and_count (of_csv f) = Ok (cleaned_frame f) ->
  In lr (rows (flagged_transcript f)) ->
  snd lr "Dialogue" = Str d ->
  exists r s,
    In r (records f)
    /\ row_of (header f) r "Dialogue" = Str s
    /\ d = Text.remove_paranthesis s.
Proof.
  intros Hclean Hin Hd.
  destruct (clean_and_count_inv f _ Hclean) as [_ [_ Hstr]].
  unfold flagged_transcript, flagged_frame, cleaned_frame in Hin.
  cbn [rows] in Hin. rewrite map_map in Hin. apply in_map_iff in Hin.
  destruct Hin as [lr0 [<- Hin0]]. cbn [fst snd] in Hd.
  rewrite flag_rows_other in Hd by reflexivity.
  destruct (Hstr lr0 Hin0) as [s Hs].
  unfold clean_row in Hd. rewrite Hs in Hd. cbn [text_of] in Hd.
  rewrite update_other, update_other, update_same in Hd by reflexivity.
  injection Hd as <-.
  unfold dropna in Hin0. cbn [rows of_csv columns] in Hin0.
  apply filter_In in Hin0. destruct Hin0 as [Hin0 _].
  pose proof (label_from_bounds _ _ _ _ Hin0) as Hb.
  pose proof (label_from_in _ _ _ _ Hin0) as Hrow.
  exists (nth (Z.to_nat (fst lr0 - 0)) (records f) []), s.
  repeat split.
  - apply nth_In. lia.
  - now rewrite <- Hrow.
Qed.

(** X11.  Whatever the file and the name, every prompt of the dataset
    opens with a newline and the system text that [chat] sends for the same
    character, and goes on with the cleaned [Dialogue] texts of two records
    of the file, one newline between them. *)
Theorem prompts_open_with_chat_system (files : string -> option csv)
  (this : self) (f : csv) (t t' : list event) (ds : Dataset) (p : string) :
  files (data_path this) = Some f ->
  load_data files this t = (Ok ds, t') ->
  In (Str p) (dataset_prompts ds) ->
  exists r1 r2 s1 s2,
    In r1 (records f) /\ In r2 (records f)
    /\ row_of (header f) r1 "Dialogue" = Str s1
    /\ row_of (header f) r2 "Dialogue" = Str s2
    /\ p = String Text.nl (chat_system_content (character_name this))
             ++ Text.remove_paranthesis s1
             ++ String Text.nl (Text.remove_paranthesis s2).
Proof.
  intros Hf H Hp.
  destruct (load_data_prompts files this f t t' ds p Hf H Hp)
    as [df [indexes [i [Hprep [_ Hat]]]]].
  destruct (prepare_inv f _ _ _ Hprep) as [-> [_ Hclean]].
  apply prompt_at_ok in Hat. destruct Hat as [d1 [d2 [H1 [H2 ->]]]].
  apply iloc_in in H1. destruct H1 as [lr1 [Hin1 E1]].
  apply iloc_in in H2. destruct H2 as [lr2 [Hin2 E2]].
  destruct (flagged_row_source f lr1 d1 Hclean Hin1 E1) as [r1 [s1 [Hr1 [Hs1 ->]]]].
  destruct (flagged_row_source f lr2 d2 Hclean Hin2 E2) as [r2 [s2 [Hr2 [Hs2 ->]]]].
  exists r1, r2, s1, s2. rewrite system_prompt_chat. tauto.
Qed.

Lemma prompts_open_with_chat_system_witness :
  exists r1 r2 s1 s2,
    In r1 (records two_lines) /\ In r2 (records two_lines)
    /\ row_of (header two_lines) r1 "Dialogue" = Str s1
    /\ row_of (header two_lines) r2 "Dialogue" = Str s2
    /\ system_prompt "Rachel" ++ " Hi there Rachel how are you"
         ++ String Text.nl " I am doing great today thanks"
       = String Text.nl (chat_system_content "Rachel")
           ++ Text.remove_paranthesis s1
           ++ String Text.nl (Text.remove_paranthesis s2).
Proof.
  apply (prompts_open_with_chat_system (disk two_lines) (bot "Rachel") two_lines
           [] [ReadCsv "transcript.csv"]
           (assemble [system_prompt "Rachel" ++ " Hi there Rachel how are you"
                        ++ String Text.nl " I am doing great today thanks"])).
  - reflexivity.
  - vm_compute. reflexivity.
  - simpl. left. reflexivity.
Defined.

(** ** The flags, lines 224-229 *)

(** X12.  After the flag loop on a transcript file, a flag of a known
    character is 0 or 1, it is 1 only in a row of that character, and so no
    row is flagged for two characters. *)
Theorem flags_are_exclusive (f : csv) (df0 df : DataFrame) (lr : Z * row)
  (c1 c2 : string) :
  well_formed f = true ->
  clean_and_count (of_csv f) = Ok df0 ->
  flag_characters df0 keys = Ok df ->
  In lr (rows df) ->
  In c1 keys -> In c2 keys ->
  (snd lr (flag_column c1) = Int 0 \/ snd lr (flag_column c1) = Int 1)
  /\ (snd lr (flag_column c1) = Int 1 -> snd lr "Speaker" = Str c1)
  /\ (snd lr (flag_column c1) = Int 1 -> snd lr (flag_column c2) = Int 1 ->
      c1 = c2).
Proof.
  intros Hw H0 H1 Hin Hc1 Hc2.
  destruct (cleaned_columns f Hw) as [Hs [_ Hn]].
  destruct (clean_and_count_inv f df0 H0) as [-> _].
  rewrite flag_characters_ok in H1; try assumption.
  2:{ apply cleaned_words. }
  injection H1 as <-. cbn [flagged_frame rows] in Hin.
  apply in_map_iff in Hin. destruct Hin as [x [<- Hx]]. cbn [snd].
  rewrite !flag_rows_same by assumption.
  rewrite (flag_rows_other keys (snd x) "Speaker") by reflexivity.
  assert (Hone : forall c,
            (if cell_eqb (snd x "Speaker") (Str c)
                && more_than 5 (snd x "number_of_words")
             then Int 1 else Int 0) = Int 1 ->
            snd x "Speaker" = Str c).
  { intros c. destruct (cell_eqb (snd x "Speaker") (Str c)) eqn:E;
      [|discriminate].
    intros _. now apply cell_eqb_str. }
  split; [|split].
  - destruct (_ && _); [now right|now left].
  - apply Hone.
  - intros E1 E2. apply Hone in E1. apply Hone in E2. congruence.
Qed.

Lemma flags_are_exclusive_witness :
  snd (nth 1 (rows (flagged_transcript two_lines)) (0, fun _ => NaN))
      (flag_column "Rachel") = Int 0
  \/ snd (nth 1 (rows (flagged_transcript two_lines)) (0, fun _ => NaN))
         (flag_column "Rachel") = Int 1.
Proof.
  apply (flags_are_exclusive two_lines (cleaned_frame two_lines)
           (flagged_transcript two_lines)
           (nth 1 (rows (flagged_transcript two_lines)) (0, fun _ => NaN))
           "Rachel" "Ross").
  - reflexivity.
  - vm_compute. reflexivity.
  - vm_compute. reflexivity.
  - simpl. right. left. reflexivity.
  - simpl. tauto.
  - simpl. tauto.
Defined.

(** ** Dialogue that is not text, line 210 *)

Lemma traverse_clean_fails (l : list cell) :
  (exists x, In x l /\ forall s, x <> Str s) ->
  traverse clean_cell l = Raise TypeError.
Proof.
  induction l as [|y l IH]; intros [x [Hin Hx]]; [destruct Hin|].
  cbn [traverse]. destruct y as [|s| |]; try reflexivity.
  cbn [clean_cell bind_result].
  destruct Hin as [<-|Hin]; [now destruct (Hx s)|].
  rewrite IH; [reflexivity|]. now exists x.
Qed.

(** X13.  When the [Dialogue] column is there and a row that [dropna]
    keeps has a dialogue that is not a text, the cleaning raises
    [TypeError], and [load_data] gives no dataset. *)
Theorem load_data_needs_text (files : string -> option csv) (this : self)
  (f : csv) (t : list event) (lr : Z * row) :
  files (data_path this) = Some f ->
  has_column "Dialogue" (header f) = true ->
  In lr (rows (dropna (of_csv f))) ->
  (forall s, snd lr "Dialogue" <> Str s) ->
  load_data files this t =
  (Raise TypeError, (t ++ [ReadCsv (data_path this)])%list).
Proof.
  intros Hf Hcol Hin Hx. rewrite (load_data_eq files this f t Hf).
  unfold prepare, clean_and_count. unfold getitem at 1.
  cbn [dropna columns of_csv]. rewrite Hcol. cbn [bind_result].
  rewrite traverse_clean_fails; [reflexivity|].
  exists (snd lr "Dialogue"). split; [|exact Hx].
  apply in_map_iff. exists lr. split; [reflexivity|exact Hin].
Qed.

Lemma load_data_needs_text_witness :
  load_data (disk numbered_lines) (bot "Rachel") [] =
  (Raise TypeError, [ReadCsv "transcript.csv"]).
Proof.
  apply (load_data_needs_text (disk numbered_lines) (bot "Rachel")
           numbered_lines []
           (nth 0 (rows (dropna (of_csv numbered_lines))) (0, fun _ => NaN))).
  - reflexivity.
  - reflexivity.
  - simpl. left. reflexivity.
  - intros s. simpl. discriminate.
Defined.

Lemma load_data_without_gaps_witness :
  exists indexes,
    prepare four_lines "Rachel" = Ok (flagged_transcript four_lines, indexes)
    /\ load_data (disk four_lines) (bot "Rachel") [] =
       (Ok (assemble
              (map (fun i => system_prompt "Rachel"
                               ++ dialogue_at four_lines (i - 1)
                               ++ String Text.nl (dialogue_at four_lines i))
                   indexes)),
        [ReadCsv "transcript.csv"]).
Proof.
  apply (load_data_without_gaps four_lines eq_refl eq_refl
           (disk four_lines) (bot "Rachel") []).
  - reflexivity.
  - simpl. tauto.
Defined.

(** ** The conversation of [chat], lines 55-83 *)

Section ChatMore.

Lemma append_history_turns (history : list (string * string)) :
  forall messages,
  append_history messages history = (messages ++ turns history)%list.
Proof.
  induction history as [|mr history IH]; intros messages.
  - cbn. now rewrite app_nil_r.
  - cbn [append_history turns flat_map]. rewrite IH.
    fold (turns history). now rewrite <- !app_assoc.
Qed.

Lemma chat_messages_eq (this : self) (message : string)
  (history : list (string * string)) :
  chat_messages this message history =
  (mkMessage "system" (chat_system_content (character_name this))
     :: turns history ++ [mkMessage "user" message])%list.
Proof. unfold chat_messages. now rewrite append_history_turns. Qed.

Lemma turns_length (history : list (string * string)) :
  List.length (turns history) = (2 * List.length history)%nat.
Proof.
  induction history as [|mr history IH]; [reflexivity|].
  cbn [turns flat_map app List.length]. fold (turns history). lia.
Qed.

Lemma turns_users (history : list (string * string)) :
  map content (filter (has_role "user") (turns history)) = map fst history.
Proof.
  induction history as [|mr history IH]; [reflexivity|].
  cbn [turns flat_map app]. fold (turns history).
  cbn. now rewrite IH.
Qed.

Lemma turns_assistants (history : list (string * string)) :
  map content (filter (has_role "assistant") (turns history)) = map snd history.
Proof.
  induction history as [|mr history IH]; [reflexivity|].
  cbn [turns flat_map app]. fold (turns history).
  cbn. now rewrite IH.
Qed.

Lemma turns_no_system (history : list (string * string)) :
  filter (has_role "system") (turns history) = [].
Proof.
  induction history as [|mr history IH]; [reflexivity|].
  cbn [turns flat_map app]. fold (turns history). cbn. exact IH.
Qed.

Lemma last_item_app {A : Type} (l : list A) (x : A) :
  last_item (l ++ [x]) = Ok x.
Proof.
  induction l as [|y l IH]; [reflexivity|].
  cbn [app last_item]. destruct (l ++ [x])%list eqn:E; [|exact IH].
  now destruct l.
Qed.

End ChatMore.

(** X17.  The conversation [chat] sends has two messages more than twice
    the exchanges of the history: it opens with the one system message,
    which names the character, and ends with the user's new message. *)
Theorem chat_conversation_shape (this : self) (message : string)
  (history : list (string * string)) :
  List.length (chat_messages this message history)
    = (2 * List.length history + 2)%nat
  /\ hd_error (chat_messages this message history)
     = Some (mkMessage "system" (chat_system_content (character_name this)))
  /\ filter (has_role "system") (chat_messages this message history)
     = [mkMessage "system" (chat_system_content (character_name this))]
  /\ last_item (chat_messages this message history)
     = Ok (mkMessage "user" message).
Proof.
  rewrite chat_messages_eq. repeat split.
  - cbn [List.length]. rewrite length_app, turns_length. cbn [List.length]. lia.
  - cbn [filter]. rewrite filter_app, turns_no_system. reflexivity.
  - apply (last_item_app (_ :: turns history)).
Qed.

(** X18.  The conversation keeps the history in order and in roles: the
    user messages are the first parts of the exchanges and then the new
    message, the assistant messages are the second parts. *)
Theorem chat_keeps_history (this : self) (message : string)
  (history : list (string * string)) :
  map content (filter (has_role "user") (chat_messages this message history))
    = (map fst history ++ [message])%list
  /\ map content (filter (has_role "assistant")
                         (chat_messages this message history))
     = map snd history.
Proof.
  rewrite chat_messages_eq. split.
  - cbn [filter]. change (has_role "user" (mkMessage "system" _)) with false.
    cbv iota. rewrite filter_app, map_app, turns_users. reflexivity.
  - cbn [filter]. change (has_role "assistant" (mkMessage "system" _)) with false.
    cbv iota. rewrite filter_app, map_app, turns_assistants. apply app_nil_r.
Qed.


Lemma cleaner_only_drops_witness :
  mem_char "("%char "(sits) Hi (waves" = true.
Proof.
  apply (proj2 (proj2 (cleaner_only_drops "(sits) Hi (waves")) "("%char).
  reflexivity.
Defined.
